(** * meme-hunter-bot: price aggregation, opportunity detection, risk
      scoring and the simulated position lifecycle

    A shallow embedding of the decision code of the repository:

    - [RiskCalculator]  : src/src/risk_calculator.py
    - [DEXManager]      : src/backup_working_version/src/dex_integrations.py
    - [ArbitrageBot]    : src/src/arbitrage_bot.py
    - [SolanaTrader]    : src/backups/successful_config_20231203/src/solana_trader.py
    - [SimulatedTrader] : src/src/simulation/sim_trader.py

    Numbers.  Python [float] and [Decimal] values are modelled by exact
    rationals [Q]; equalities between computed amounts are stated with
    [==] (Qeq).  Rounding (binary for [float], 28 significant digits for
    [Decimal]) is outside the model, as are NaN and the infinities.

    Dictionaries.  A dict whose iteration order is observed by the code
    ([min]/[max] over [items()]) is an association list in insertion
    order; the table of open positions, only accessed by key, is a
    [gmap].  Position dicts are mutable objects shared by reference, so
    they live in an object store and the table maps a token to a
    reference. *)

From Stdlib Require Import QArith Lqa String Ascii List Bool.
From stdpp Require Import gmap strings list fin_maps.

Local Open Scope string_scope.

(** ** Python built-ins used by the code *)

Module Py.

(** [str.upper()] on ASCII text. *)
Definition upper_ascii (c : ascii) : ascii :=
  let n := nat_of_ascii c in
  if (Nat.leb 97 n && Nat.leb n 122)%bool then ascii_of_nat (n - 32) else c.

Fixpoint upper (s : string) : string :=
  match s with
  | EmptyString => EmptyString
  | String c r => String (upper_ascii c) (upper r)
  end.

Section Dict.
Context {V : Type}.

(** [d[k] = v] on an insertion-ordered dict: an existing key keeps
    its place, a new key goes last. *)
Fixpoint dict_set (k : string) (v : V) (d : list (string * V))
  : list (string * V) :=
  match d with
  | [] => [(k, v)]
  | (k', v') :: r =>
      if String.eqb k k' then (k, v) :: r else (k', v') :: dict_set k v r
  end.

Fixpoint dict_get (k : string) (d : list (string * V)) : option V :=
  match d with
  | [] => None
  | (k', v') :: r => if String.eqb k k' then Some v' else dict_get k r
  end.
End Dict.

Local Open Scope Q_scope.

(** [min(items, key=lambda x: x[1])]: the running best is replaced
    only by a strictly smaller key, so the first minimum wins. *)
Fixpoint min_from (best : string * Q) (l : list (string * Q)) : string * Q :=
  match l with
  | [] => best
  | x :: r => min_from (if Qlt_le_dec (snd x) (snd best) then x else best) r
  end.

(** [max(items, key=lambda x: x[1])]: replaced only by a strictly
    larger key, so the first maximum wins. *)
Fixpoint max_from (best : string * Q) (l : list (string * Q)) : string * Q :=
  match l with
  | [] => best
  | x :: r => max_from (if Qlt_le_dec (snd best) (snd x) then x else best) r
  end.

(** [None] stands for the ValueError of an empty sequence. *)
Definition min_by_value (l : list (string * Q)) : option (string * Q) :=
  match l with
  | [] => None
  | x :: r => Some (min_from x r)
  end.

Definition max_by_value (l : list (string * Q)) : option (string * Q) :=
  match l with
  | [] => None
  | x :: r => Some (max_from x r)
  end.

(** [x] is the first item of [l] with the least value. *)
Definition first_min (l : list (string * Q)) (x : string * Q) : Prop :=
  exists l1 l2, l = (l1 ++ x :: l2)%list /\
    (forall y, In y l1 -> snd x < snd y) /\
    (forall y, In y l2 -> snd x <= snd y).

(** [x] is the first item of [l] with the greatest value. *)
Definition first_max (l : list (string * Q)) (x : string * Q) : Prop :=
  exists l1 l2, l = (l1 ++ x :: l2)%list /\
    (forall y, In y l1 -> snd y < snd x) /\
    (forall y, In y l2 -> snd y <= snd x).

(** [b] and [s] are items of [l], of least and greatest value. *)
Definition extremes (l : list (string * Q)) (b s : string * Q) : Prop :=
  (2 <= length l)%nat /\ snd b <= snd s /\ In b l /\ In s l /\
  forall y, In y l -> snd b <= snd y <= snd s.

(** The builtin [min(a, b)] / [max(a, b)] on numbers. *)
Definition min2 (a b : Q) : Q := if Qlt_le_dec b a then b else a.
Definition max2 (a b : Q) : Q := if Qlt_le_dec a b then b else a.

End Py.

(** ** risk_calculator.py *)

Module RiskCalculator.
Local Open Scope Q_scope.

(** [self.weights]. *)
Record weights := {
  volatility : Q;
  liquidity : Q;
  spread : Q;
  volume : Q;
  smart_contract : Q
}.

Definition default_weights : weights :=
  {| volatility := 0.3; liquidity := 0.25; spread := 0.15;
     volume := 0.15; smart_contract := 0.15 |}.

Definition weights_sum (w : weights) : Q :=
  volatility w + liquidity w + spread w + volume w + smart_contract w.

Definition nonneg_weights (w : weights) : Prop :=
  0 <= volatility w /\ 0 <= liquidity w /\ 0 <= spread w /\
  0 <= volume w /\ 0 <= smart_contract w.

(** The five sub-scores of [risk_breakdown['components']]. *)
Record components := {
  volatility_risk : Q;
  liquidity_risk : Q;
  spread_risk : Q;
  volume_risk : Q;
  smart_contract_risk : Q
}.



(** [calculate_risk_score], lines 53-59: the weighted sum. *)
Definition total_risk (w : weights) (c : components) : Q :=
  volatility_risk c * volatility w +
  liquidity_risk c * liquidity w +
  spread_risk c * spread w +
  volume_risk c * volume w +
  smart_contract_risk c * smart_contract w.

(** [self.dex_risk_scores.get(dex, 50.0)]. *)
Definition dex_risk_score (dex : string) : Q :=
  if String.eqb dex "Raydium" then 15
  else if String.eqb dex "Orca" then 20
  else if String.eqb dex "Jupiter" then 25
  else if String.eqb dex "Saros" then 35
  else if String.eqb dex "Marinade" then 30
  else 50.

(** [get_dex_liquidity]: the mock table. *)
Definition get_dex_liquidity (dex : string) : Q :=
  if String.eqb dex "Raydium" then 1000000
  else if String.eqb dex "Orca" then 800000
  else if String.eqb dex "Jupiter" then 1200000
  else if String.eqb dex "Saros" then 300000
  else if String.eqb dex "Marinade" then 500000
  else 100000.

Definition calculate_liquidity_risk (buy_dex sell_dex : string) : Q :=
  let buy_risk := 100 - Py.min2 100 (get_dex_liquidity buy_dex / 10000 * 100) in
  let sell_risk := 100 - Py.min2 100 (get_dex_liquidity sell_dex / 10000 * 100) in
  Py.max2 buy_risk sell_risk.

(** [calculate_spread_risk]; a zero buy price raises
    ZeroDivisionError, which the handler turns into 50.0. *)
Definition calculate_spread_risk (buy_price sell_price : Q) : Q :=
  if Qeq_bool buy_price 0 then 50
  else
    let spread_percentage := (sell_price - buy_price) / buy_price * 100 in
    if Qlt_le_dec 5 spread_percentage then 80
    else if Qlt_le_dec 2 spread_percentage then 50
    else 20.

(** [calculate_volume_risk] on the fetched 24h volume. *)
Definition calculate_volume_risk (volume24h : Q) : Q :=
  if Qlt_le_dec 1000000 volume24h then 20
  else if Qlt_le_dec 100000 volume24h then 50
  else 80.

Definition calculate_smart_contract_risk (buy_dex sell_dex : string) : Q :=
  Py.max2 (dex_risk_score buy_dex) (dex_risk_score sell_dex).

Record opportunity := {
  buy_dex : string;
  sell_dex : string;
  buy_price : Q;
  sell_price : Q
}.

(** The components gathered by [calculate_risk_score].  The
    volatility score (numpy standard deviation of log returns) and the
    fetched 24h volume come from the network and are inputs here. *)
Definition gather (o : opportunity) (volatility_score volume24h : Q)
  : components :=
  {| volatility_risk := volatility_score;
     liquidity_risk := calculate_liquidity_risk (buy_dex o) (sell_dex o);
     spread_risk := calculate_spread_risk (buy_price o) (sell_price o);
     volume_risk := calculate_volume_risk volume24h;
     smart_contract_risk :=
       calculate_smart_contract_risk (buy_dex o) (sell_dex o) |}.

Definition calculate_risk_score (w : weights) (o : opportunity)
    (volatility_score volume24h : Q) : Q :=
  total_risk w (gather o volatility_score volume24h).

Definition get_risk_level (risk_score : Q) : string :=
  if Qlt_le_dec risk_score 30 then "Low Risk"
  else if Qlt_le_dec risk_score 60 then "Medium Risk"
  else "High Risk".

End RiskCalculator.

(** ** dex_integrations.py *)

Module DEXManager.
Local Open Scope Q_scope.

(** What awaiting one venue call gives: the float returned, or an
    exception. *)
Inductive fetched :=
| Returned (x : Q)
| Raised.

(** The venues during one call: the answers of
    [dex.get_price(base, quote)] and [dex.get_liquidity(base, quote)]
    for the venue named [dex]. *)
Record market := {
  get_price : string -> string -> string -> fetched;
  get_liquidity : string -> string -> string -> fetched
}.

(** [self.dexes] (its keys, in insertion order) and
    [self.trading_pairs]. *)
Record manager := {
  dexes : list string;
  trading_pairs : list (string * string)
}.

Definition default_manager : manager :=
  {| dexes := ["Raydium"; "Orca"; "Jupiter"; "Saros"; "Marinade"];
     trading_pairs :=
       [("SOL", "USDC"); ("SOL", "USDT"); ("BTC", "USDC"); ("ETH", "USDC");
        ("RAY", "USDC"); ("ORCA", "USDC"); ("SRM", "USDC"); ("mSOL", "SOL");
        ("mSOL", "USDC"); ("BONK", "USDC"); ("SAMO", "USDC");
        ("COPE", "USDC"); ("FIDA", "USDC"); ("MNGO", "USDC");
        ("SLND", "USDC")] |}.

Definition pair_key (base quote : string) : string :=
  base ++ "-" ++ quote.

(** The loop shared by [get_all_prices] (lines 169-175) and
    [get_liquidity_info] (lines 212-218): a value is stored only if
    the call returned and the value is positive; an exception is
    logged and the loop goes on. *)
Fixpoint collect_positive (tasks : list (string * fetched))
    (acc : list (string * Q)) : list (string * Q) :=
  match tasks with
  | [] => acc
  | (dex_name, task) :: r =>
      match task with
      | Returned x =>
          if Qlt_le_dec 0 x
          then collect_positive r (Py.dict_set dex_name x acc)
          else collect_positive r acc
      | Raised => collect_positive r acc
      end
  end.

(** The body of the outer loop of [get_all_prices] for one pair. *)
Definition pair_prices (m : market) (g : manager) (base quote : string)
  : list (string * Q) :=
  collect_positive
    (map (fun dex_name => (dex_name, get_price m dex_name base quote))
         (dexes g))
    [].

(** Lines 158-175 for one [(base, quote)] of [self.trading_pairs]. *)
Definition store_pair (m : market) (g : manager)
    (prices : list (string * list (string * Q))) (bq : string * string)
  : list (string * list (string * Q)) :=
  Py.dict_set (pair_key (fst bq) (snd bq))
              (pair_prices m g (fst bq) (snd bq)) prices.

Definition get_all_prices (m : market) (g : manager)
  : list (string * list (string * Q)) :=
  fold_left (store_pair m g) (trading_pairs g) [].

Record opportunity := {
  pair : string;
  buy_dex : string;
  sell_dex : string;
  buy_price : Q;
  sell_price : Q;
  profit_percentage : Q
}.

(** One iteration of the loop of [get_arbitrage_opportunities] (lines
    184-203).  A zero minimum price makes the division raise; nothing
    in the function catches it. *)
Inductive outcome :=
| ZeroDivisionError
| NoOpportunity
| Emitted (o : opportunity).

Definition detect (pair_name : string) (dex_prices : list (string * Q))
    (min_profit_percentage : Q) : outcome :=
  match dex_prices with
  | x :: (_ :: _) as r =>
      let min_price_dex := Py.min_from x r in
      let max_price_dex := Py.max_from x r in
      if Qeq_bool (snd min_price_dex) 0 then ZeroDivisionError
      else
        let pct :=
          (snd max_price_dex - snd min_price_dex) / snd min_price_dex * 100 in
        if Qle_bool min_profit_percentage pct
        then Emitted {| pair := pair_name;
                        buy_dex := fst min_price_dex;
                        sell_dex := fst max_price_dex;
                        buy_price := snd min_price_dex;
                        sell_price := snd max_price_dex;
                        profit_percentage := pct |}
        else NoOpportunity
  | _ => NoOpportunity
  end.

(** The loop over [prices.items()]; [None] is a propagated
    exception. *)
Fixpoint scan (prices : list (string * list (string * Q)))
    (min_profit_percentage : Q) (opportunities : list opportunity)
  : option (list opportunity) :=
  match prices with
  | [] => Some opportunities
  | (pair_name, dex_prices) :: r =>
      match detect pair_name dex_prices min_profit_percentage with
      | ZeroDivisionError => None
      | NoOpportunity => scan r min_profit_percentage opportunities
      | Emitted o => scan r min_profit_percentage (opportunities ++ [o])
      end
  end.

Definition get_arbitrage_opportunities (m : market) (g : manager)
    (min_profit_percentage : Q) : option (list opportunity) :=
  scan (get_all_prices m g) min_profit_percentage [].

Definition get_liquidity_info (m : market) (g : manager)
    (bq : string * string) : list (string * Q) :=
  collect_positive
    (map (fun dex_name => (dex_name, get_liquidity m dex_name (fst bq) (snd bq)))
         (dexes g))
    [].

End DEXManager.

(** ** arbitrage_bot.py *)

Module ArbitrageBot.
Local Open Scope Q_scope.
Import DEXManager.

Record opportunity := {
  base_token : string;
  quote_token : string;
  buy_dex : string;
  sell_dex : string;
  buy_price : Q;
  sell_price : Q;
  potential_profit_usd : Q
}.

(** Lines 98-104: every price that was fetched is stored, whatever
    its sign. *)
Fixpoint collect (tasks : list (string * fetched)) (prices : list (string * Q))
  : list (string * Q) :=
  match tasks with
  | [] => prices
  | (dex, Returned price) :: r => collect r (Py.dict_set dex price prices)
  | (_, Raised) :: r => collect r prices
  end.

(** Lines 106-126 for one pair. *)
Definition best_spread (base quote : string) (prices : list (string * Q))
    (min_profit_usd : Q) : option opportunity :=
  match prices with
  | x :: (_ :: _) as r =>
      let buy := Py.min_from x r in
      let sell := Py.max_from x r in
      let price_diff := snd sell - snd buy in
      let profit_usd := price_diff * 1 in
      if Qle_bool min_profit_usd profit_usd
      then Some {| base_token := base; quote_token := quote;
                   buy_dex := fst buy; sell_dex := fst sell;
                   buy_price := snd buy; sell_price := snd sell;
                   potential_profit_usd := profit_usd |}
      else None
  | _ => None
  end.

(** [find_arbitrage_opportunity]: the first pair that clears the
    threshold; [get_token_price base dex] is the simulated quote. *)
Fixpoint find_arbitrage_opportunity
    (get_token_price : string -> string -> fetched)
    (dex_names : list string) (pairs : list (string * string))
    (min_profit_usd : Q) : option opportunity :=
  match pairs with
  | [] => None
  | (base, quote) :: r =>
      let prices :=
        collect (map (fun dex => (dex, get_token_price base dex)) dex_names) [] in
      match best_spread base quote prices min_profit_usd with
      | Some o => Some o
      | None => find_arbitrage_opportunity get_token_price dex_names r
                  min_profit_usd
      end
  end.

End ArbitrageBot.

(** ** solana_trader.py: exit analysis *)

Module SolanaTrader.
Local Open Scope Q_scope.

(** [self.trading_config['exit']]. *)
Record exit_config := {
  take_profit : Q;
  stop_loss : Q;
  trailing_stop : Q;
  max_hold_time : Q
}.

Definition default_exit : exit_config :=
  {| take_profit := 0.20; stop_loss := 0.10; trailing_stop := 0.05;
     max_hold_time := 3600 |}.

(** The fields of [_get_position_data] that the analysis reads. *)
Record position_data := {
  hold_time : Q;
  trailing_high : Q
}.

(** The entries of ['reasons']; each carries the number that the
    source formats into the message. *)
Inductive reason :=
| TakeProfitHit (pct : Q)
| StopLossHit (pct : Q)
| TrailingStopHit (pct : Q)
| MaxHoldTimeReached (hours : Q)
| Error.

Record exit_analysis := {
  should_exit : bool;
  reasons : list reason;
  current_price : Q;
  price_change : Q
}.

(** The handler of line 1735. *)
Definition on_error : exit_analysis :=
  {| should_exit := true; reasons := [Error]; current_price := 0;
     price_change := 0 |}.

(** [analyze_exit_opportunity], lines 1690-1737.  [price] is what
    [_get_current_price] returned and [data] what [_get_position_data]
    returned; [position_size] is not read.  The two divisions raise
    ZeroDivisionError on a zero divisor. *)
Definition analyze_exit_opportunity (cfg : exit_config) (price : Q)
    (data : position_data) (entry_price : Q) : exit_analysis :=
  if Qeq_bool entry_price 0 then on_error
  else
    let change := (price - entry_price) / entry_price in
    let take_profit_hit := Qle_bool (take_profit cfg) change in
    let stop_loss_hit := Qle_bool change (- stop_loss cfg) in
    if Qeq_bool (trailing_high data) 0 then on_error
    else
      let drop := (trailing_high data - price) / trailing_high data in
      let trailing_stop_hit := Qle_bool (trailing_stop cfg) drop in
      let held := Qle_bool (max_hold_time cfg) (hold_time data) in
      {| should_exit :=
           take_profit_hit || stop_loss_hit || trailing_stop_hit || held;
         reasons :=
           (if take_profit_hit then [TakeProfitHit (change * 100)] else []) ++
           (if stop_loss_hit then [StopLossHit (change * 100)] else []) ++
           (if trailing_stop_hit then [TrailingStopHit (drop * 100)] else []) ++
           (if held then [MaxHoldTimeReached (hold_time data / 3600)] else []);
         current_price := price;
         price_change := change |}.

End SolanaTrader.

(** ** sim_trader.py *)

Module SimulatedTrader.
Local Open Scope Q_scope.

(** The three named levels, used both for the multipliers
    [take_profit_levels] and for the prices [position['take_profits']]. *)
Record levels := {
  first : Q;
  second : Q;
  moonbag : Q
}.

(** A position dict. *)
Record position := {
  amount : Q;
  entry_price : Q;
  current_price : Q;
  position_size : Q;
  stop_loss : Q;
  take_profits : levels;
  moonbag_reserved : bool
}.

#[export] Instance position_inhabited : Inhabited position :=
  populate {| amount := 0; entry_price := 0; current_price := 0;
              position_size := 0; stop_loss := 0;
              take_profits := {| first := 0; second := 0; moonbag := 0 |};
              moonbag_reserved := false |}.

(** [position['current_price'] = v] *)
Definition set_current_price (v : Q) (p : position) : position :=
  {| amount := amount p; entry_price := entry_price p; current_price := v;
     position_size := position_size p; stop_loss := stop_loss p;
     take_profits := take_profits p; moonbag_reserved := moonbag_reserved p |}.

(** [position['amount'] -= d] *)
Definition sub_amount (d : Q) (p : position) : position :=
  {| amount := amount p - d; entry_price := entry_price p;
     current_price := current_price p; position_size := position_size p;
     stop_loss := stop_loss p; take_profits := take_profits p;
     moonbag_reserved := moonbag_reserved p |}.

(** [position['moonbag_reserved'] = True] *)
Definition reserve_moonbag (p : position) : position :=
  {| amount := amount p; entry_price := entry_price p;
     current_price := current_price p; position_size := position_size p;
     stop_loss := stop_loss p; take_profits := take_profits p;
     moonbag_reserved := true |}.

(** An entry of [trade_history] (the wall-clock timestamp is left
    out). *)
Record trade := {
  trade_token : string;
  trade_action : string;
  trade_amount : Q;
  trade_entry_price : Q;
  exit_price : Q;
  profit : Q
}.

(** The trader.  Position dicts are objects: [objects] is the store,
    a reference is an index into it, and [positions] maps a token to
    the reference of its dict.  [del self.positions[token]] removes
    the table entry only; the dict stays reachable through any other
    reference to it. *)
Record trader := {
  initial_balance : Q;
  current_balance : Q;
  positions : gmap string nat;
  objects : list position;
  trade_history : list trade;
  wins : nat;
  losses : nat;
  total_trades : nat;
  max_position_size : Q;
  stop_loss_pct : Q;
  take_profit_levels : levels
}.

(** [__init__] *)
Definition init (balance : Q) : trader :=
  {| initial_balance := balance;
     current_balance := balance;
     positions := ∅;
     objects := [];
     trade_history := [];
     wins := 0; losses := 0; total_trades := 0;
     max_position_size := balance * 0.10;
     stop_loss_pct := 0.08;
     take_profit_levels := {| first := 1.30; second := 1.80; moonbag := 5.00 |} |}.

(** What [execute_trade] returns. *)
Inductive result :=
| Success (balance : Q) (action : string) (amount_arg price : Q)
| Failure (error : string).

Definition succeeded (r : result) : bool :=
  match r with Success _ _ _ _ => true | Failure _ => false end.

(** Reading and writing a dict through a reference. *)
Definition deref (t : trader) (r : nat) : position := objects t !!! r.

Definition write (t : trader) (r : nat) (f : position -> position) : trader :=
  {| initial_balance := initial_balance t;
     current_balance := current_balance t;
     positions := positions t;
     objects := alter f r (objects t);
     trade_history := trade_history t;
     wins := wins t; losses := losses t; total_trades := total_trades t;
     max_position_size := max_position_size t;
     stop_loss_pct := stop_loss_pct t;
     take_profit_levels := take_profit_levels t |}.

(** Lines 45-58: debit the balance, store a new dict under the
    token. *)
Definition open_position (t : trader) (token : string)
    (amount_arg price : Q) : trader :=
  let size := amount_arg * price in
  {| initial_balance := initial_balance t;
     current_balance := current_balance t - size;
     positions := <[token := length (objects t)]> (positions t);
     objects :=
       objects t ++
       [{| amount := amount_arg;
           entry_price := price;
           current_price := price;
           position_size := size;
           stop_loss := price * (1 - stop_loss_pct t);
           take_profits :=
             {| first := price * first (take_profit_levels t);
                second := price * second (take_profit_levels t);
                moonbag := price * moonbag (take_profit_levels t) |};
           moonbag_reserved := false |}];
     trade_history := trade_history t;
     wins := wins t; losses := losses t; total_trades := total_trades t;
     max_position_size := max_position_size t;
     stop_loss_pct := stop_loss_pct t;
     take_profit_levels := take_profit_levels t |}.

(** Lines 64-86: credit the whole [position['amount']] at [price],
    count the win or loss, record the trade, delete the entry.  The
    [amount] argument of the call is not read here. *)
Definition close_position (t : trader) (token action : string)
    (p : position) (price : Q) : trader :=
  let won := if Qlt_le_dec (entry_price p) price then true else false in
  {| initial_balance := initial_balance t;
     current_balance := current_balance t + amount p * price;
     positions := delete token (positions t);
     objects := objects t;
     trade_history :=
       trade_history t ++
       [{| trade_token := token; trade_action := action;
           trade_amount := amount p;
           trade_entry_price := entry_price p;
           exit_price := price;
           profit := (price - entry_price p) * amount p |}];
     wins := if won then S (wins t) else wins t;
     losses := if won then losses t else S (losses t);
     total_trades := S (total_trades t);
     max_position_size := max_position_size t;
     stop_loss_pct := stop_loss_pct t;
     take_profit_levels := take_profit_levels t |}.

(** [execute_trade], lines 30-101.  Every exception raised in the
    body is caught and reported as a failure; an action that is
    neither BUY nor SELL falls through to the success report. *)
Definition execute_trade (t : trader) (token action : string)
    (amount_arg price : Q) : trader * result :=
  if String.eqb (Py.upper action) "BUY" then
    if Qlt_le_dec (current_balance t) (amount_arg * price)
    then (t, Failure "Insufficient balance for trade")
    else if Qlt_le_dec (max_position_size t) (amount_arg * price)
    then (t, Failure "Position size exceeds maximum allowed")
    else
      let t' := open_position t token amount_arg price in
      (t', Success (current_balance t') action amount_arg price)
  else if String.eqb (Py.upper action) "SELL" then
    match positions t !! token with
    | None => (t, Failure "No open position for this token")
    | Some r =>
        let t' := close_position t token action (deref t r) price in
        (t', Success (current_balance t') action amount_arg price)
    end
  else (t, Success (current_balance t) action amount_arg price).

(** The call sites of [execute_trade] in [update_positions], named
    after the comments that introduce them. *)
Inductive exit_site :=
| StopLoss
| FirstTarget
| SecondTarget
| MoonbagTarget.

(** One call made by [update_positions]: where from, the amount asked
    for, and what came back. *)
Record call := {
  site : exit_site;
  requested : Q;
  outcome : result
}.

(** Lines 118-122 *)
Definition first_target (t : trader) (token : string) (r : nat) (price : Q)
  : trader * list call :=
  if Qle_bool (first (take_profits (deref t r))) price then
    let sell_amount := amount (deref t r) * 0.40 in
    let '(t1, res) := execute_trade t token "SELL" sell_amount price in
    (write t1 r (sub_amount sell_amount),
     [{| site := FirstTarget; requested := sell_amount; outcome := res |}])
  else (t, []).

(** Lines 124-129 *)
Definition second_target (t : trader) (token : string) (r : nat) (price : Q)
  : trader * list call :=
  if Qle_bool (second (take_profits (deref t r))) price then
    let sell_amount := amount (deref t r) * 0.40 in
    let '(t1, res) := execute_trade t token "SELL" sell_amount price in
    (write (write t1 r (sub_amount sell_amount)) r reserve_moonbag,
     [{| site := SecondTarget; requested := sell_amount; outcome := res |}])
  else (t, []).

(** Lines 131-133 *)
Definition moonbag_target (t : trader) (token : string) (r : nat) (price : Q)
  : trader * list call :=
  if Qle_bool (moonbag (take_profits (deref t r))) price then
    let '(t1, res) :=
      execute_trade t token "SELL" (amount (deref t r)) price in
    (t1, [{| site := MoonbagTarget; requested := amount (deref t r);
             outcome := res |}])
  else (t, []).

(** The body of the loop of [update_positions] for one
    [(token, data)] item, lines 106-133. *)
Definition update_position (t : trader) (token : string) (price : Q)
  : trader * list call :=
  match positions t !! token with
  | None => (t, [])
  | Some r =>
      let t0 := write t r (set_current_price price) in
      if Qle_bool price (stop_loss (deref t0 r)) then
        let '(t1, res) :=
          execute_trade t0 token "SELL" (amount (deref t0 r)) price in
        (t1, [{| site := StopLoss; requested := amount (deref t0 r);
                 outcome := res |}])
      else if negb (moonbag_reserved (deref t0 r)) then
        let '(t1, log1) := first_target t0 token r price in
        let '(t2, log2) := second_target t1 token r price in
        let '(t3, log3) := moonbag_target t2 token r price in
        (t3, (log1 ++ log2 ++ log3)%list)
      else (t0, [])
  end.

(** [update_positions]: the items of [market_data] in order, each
    carrying [data['price']]. *)
Fixpoint update_positions (t : trader) (market_data : list (string * Q))
  : trader * list call :=
  match market_data with
  | [] => (t, [])
  | (token, price) :: rest =>
      let '(t1, log1) := update_position t token price in
      let '(t2, log2) := update_positions t1 rest in
      (t2, (log1 ++ log2)%list)
  end.

(** The position invariant as the specification words it: the
    fractions of the position sold by the calls that succeeded, plus
    the fraction still open in the table, add up to 1 ([size] is the
    amount bought). *)
Definition sold_amount (log : list call) : Q :=
  fold_right
    (fun c acc => if succeeded (outcome c) then requested c + acc else acc)
    0 log.

Definition open_amount (t : trader) (token : string) : Q :=
  match positions t !! token with
  | Some r => amount (deref t r)
  | None => 0
  end.

Definition size_conserved (size : Q) (t : trader) (token : string)
    (log : list call) : Prop :=
  sold_amount log / size + open_amount t token / size == 1.

(** "the quote credited to the balance equals the amounts actually sold
    times their sell prices", for calls made at one price. *)
Definition credit_matches (before after : trader) (price : Q)
    (log : list call) : Prop :=
  current_balance after - current_balance before == sold_amount log * price.

(** Every reference held by the table points into the store. *)
Definition store_ok (t : trader) : Prop :=
  forall token r, positions t !! token = Some r -> (r < length (objects t))%nat.

(** The position bought in the examples: 10 units of "T" at 1.00 out
    of a balance of 500. *)
Definition bought_T : trader :=
  fst (execute_trade (init 500) "T" "BUY" 10 1.00).

(** A position opened at price 0: its stop-loss and all its targets
    are 0. *)
Definition bought_free : trader :=
  fst (execute_trade (init 500) "T" "BUY" 10 0).

End SimulatedTrader.

(** ** The detector's selection rule as the specification words it *)

Module SpecDetector.
Local Open Scope Q_scope.

(** A quote as in the specification's data model. *)
Record quote := {
  venue : string;
  price : Q;
  liquidityUsd : Q
}.

Definition price_map (qs : list quote) : list (string * Q) :=
  map (fun q => (venue q, price q)) qs.

(** "ties broken by venue with higher liquidityUsd, then lexical
    venue name": [a] goes before [b] among equal prices. *)
Definition tie_break (a b : quote) : bool :=
  if Qlt_le_dec (liquidityUsd b) (liquidityUsd a) then true
  else if Qlt_le_dec (liquidityUsd a) (liquidityUsd b) then false
  else String.ltb (venue a) (venue b).

(** "buyVenue = venue with minimum price" *)
Definition prefer_buy (a b : quote) : bool :=
  if Qlt_le_dec (price a) (price b) then true
  else if Qlt_le_dec (price b) (price a) then false
  else tie_break a b.

(** "sellVenue = venue with maximum price" *)
Definition prefer_sell (a b : quote) : bool :=
  if Qlt_le_dec (price b) (price a) then true
  else if Qlt_le_dec (price a) (price b) then false
  else tie_break a b.

Fixpoint pick (prefer : quote -> quote -> bool) (best : quote)
    (l : list quote) : quote :=
  match l with
  | [] => best
  | x :: r => pick prefer (if prefer x best then x else best) r
  end.

Definition spec_buy_venue (qs : list quote) : option string :=
  match qs with
  | [] => None
  | x :: r => Some (venue (pick prefer_buy x r))
  end.

Definition spec_sell_venue (qs : list quote) : option string :=
  match qs with
  | [] => None
  | x :: r => Some (venue (pick prefer_sell x r))
  end.

(** "opportunity emitted only if ... both venues' liquidityUsd >= a
    configured floor", read on the venue answers of a market. *)
Definition liquid (m : DEXManager.market) (floor : Q)
    (dex base quote_token : string) : Prop :=
  match DEXManager.get_liquidity m dex base quote_token with
  | DEXManager.Returned x => floor <= x
  | DEXManager.Raised => False
  end.

End SpecDetector.

(** ** Markets and quote maps used in the examples *)

Module Fixtures.
Local Open Scope Q_scope.
Import DEXManager.

(** Raydium quotes 1.00 and Orca 1.06 for every pair; Jupiter's call
    raises, Saros answers 0.0 and Marinade a negative number.  No
    venue has any liquidity. *)
Definition thin_market : market :=
  {| get_price := fun dex _ _ =>
       if String.eqb dex "Raydium" then Returned 1.00
       else if String.eqb dex "Orca" then Returned 1.06
       else if String.eqb dex "Jupiter" then Raised
       else if String.eqb dex "Saros" then Returned 0
       else Returned (-1);
     get_liquidity := fun _ _ _ => Returned 0 |}.

Definition sol_only : manager :=
  {| dexes := dexes default_manager; trading_pairs := [("SOL", "USDC")] |}.

(** Raydium and Orca tie on the lowest price, Saros and Marinade on
    the highest; Orca and Marinade are the more liquid of each pair. *)
Definition tied_quotes : list SpecDetector.quote :=
  [ {| SpecDetector.venue := "Raydium"; SpecDetector.price := 1.00;
       SpecDetector.liquidityUsd := 100 |};
    {| SpecDetector.venue := "Orca"; SpecDetector.price := 1.00;
       SpecDetector.liquidityUsd := 200 |};
    {| SpecDetector.venue := "Saros"; SpecDetector.price := 1.10;
       SpecDetector.liquidityUsd := 100 |};
    {| SpecDetector.venue := "Marinade"; SpecDetector.price := 1.10;
       SpecDetector.liquidityUsd := 200 |} ].

End Fixtures.

(** ** dex_integrations.py: the venue classes *)

Module Venues.
Local Open Scope Q_scope.
Import DEXManager.

(** What the GET request of a venue gives: the session raises, or a
    response arrives with a status and, in its JSON body, the price
    field ([None] when the field is missing or is not a number, so that
    the lookup or [float] raises). *)
Inductive http :=
| Unreachable
| Response (status : nat) (price_field : option Q).

(** [get_price] of RaydiumDEX, OrcaDEX, JupiterDEX and SarosDEX: the
    body is read only on status 200; any other status gives 0.0. *)
Definition rest_get_price (r : http) : fetched :=
  match r with
  | Unreachable => Raised
  | Response status body =>
      if Nat.eqb status 200 then
        match body with
        | Some p => Returned p
        | None => Raised
        end
      else Returned 0
  end.

(** [MarinadeFinance.get_price]: 0.0, without any request, unless one
    side of the pair is mSOL. *)
Definition marinade_get_price (r : http) (base quote : string) : fetched :=
  if (negb (String.eqb base "mSOL") && negb (String.eqb quote "mSOL"))%bool
  then Returned 0
  else rest_get_price r.

(** [dex.get_price(base, quote)] for the venue registered under
    [dex_name] in [DEXManager.dexes], given what the network answers. *)
Definition venue_get_price (net : string -> string -> string -> http)
    (dex_name base quote : string) : fetched :=
  if String.eqb dex_name "Marinade"
  then marinade_get_price (net dex_name base quote) base quote
  else rest_get_price (net dex_name base quote).

Definition live_market (net : string -> string -> string -> http)
    (liq : string -> string -> string -> fetched) : market :=
  {| get_price := venue_get_price net; get_liquidity := liq |}.

End Venues.

(** ** arbitrage_bot.py: the simulated price feed *)

Module SimulatedFeed.
Local Open Scope Q_scope.

(** [base_prices.get(token, 0)] *)
Definition base_price (token : string) : Q :=
  if String.eqb token "WETH" then 2000
  else if String.eqb token "WBTC" then 35000
  else if String.eqb token "USDC" then 1
  else if String.eqb token "DAI" then 1
  else 0.

(** [get_token_price]: [variation] is the value drawn by
    [random.uniform(-0.001, 0.001)]. *)
Definition get_token_price (token : string) (variation : Q) : Q :=
  base_price token * (1 + variation).

(** Lines 95-104 of [find_arbitrage_opportunity]: one price per venue;
    [variation k] is the draw of the [k]-th call of [get_token_price]
    and [n] counts the calls made so far. *)
Fixpoint quote_round (variation : nat -> Q) (base : string)
    (dex_names : list string) (n : nat) (prices : list (string * Q))
  : list (string * Q) * nat :=
  match dex_names with
  | [] => (prices, n)
  | dex :: r =>
      quote_round variation base r (S n)
        (Py.dict_set dex (get_token_price base (variation n)) prices)
  end.

(** [find_arbitrage_opportunity] over the simulated feed. *)
Fixpoint find_arbitrage_opportunity (variation : nat -> Q)
    (dex_names : list string) (pairs : list (string * string))
    (min_profit_usd : Q) (n : nat) : option ArbitrageBot.opportunity :=
  match pairs with
  | [] => None
  | (base, quote) :: r =>
      let '(prices, n') := quote_round variation base dex_names n [] in
      match ArbitrageBot.best_spread base quote prices min_profit_usd with
      | Some o => Some o
      | None => find_arbitrage_opportunity variation dex_names r min_profit_usd n'
      end
  end.

(** The draws stay within the bounds given to [random.uniform]. *)
Definition bounded (variation : nat -> Q) : Prop :=
  forall k, - (0.001) <= variation k <= 0.001.

End SimulatedFeed.

(** ** solana_trader.py: entry analysis *)

Module SolanaEntry.
Local Open Scope Q_scope.

(** [self.trading_config['entry']] and [['position']], the fields that
    [analyze_entry_opportunity] reads. *)
Record entry_config := {
  momentum_threshold : Q;
  volume_threshold : Q;
  min_liquidity : Q
}.

Record position_config := {
  max_position_size : Q;
  min_position_size : Q;
  max_open_positions : nat
}.

Definition default_entry : entry_config :=
  {| momentum_threshold := 0.05; volume_threshold := 10000;
     min_liquidity := 50000 |}.

Definition default_position : position_config :=
  {| max_position_size := 0.10; min_position_size := 0.01;
     max_open_positions := 5 |}.

(** [_calculate_momentum] as bound in the class (the second definition,
    line 1773, replaces the first): [price_data] is the list of the
    ['price'] fields.  A zero first price raises ZeroDivisionError and
    the handler returns 0. *)
Definition _calculate_momentum (price_data : list Q) : Q :=
  match price_data with
  | [] => 0
  | first_price :: _ =>
      if Qeq_bool first_price 0 then 0
      else (List.last price_data 0 - first_price) / first_price
  end.

(** The entries of ['reasons'], with the number each message shows. *)
Inductive reason :=
| StrongMomentum (pct : Q)
| GoodVolume (usd : Q)
| SufficientLiquidity (usd : Q)
| PositionLimitNotReached
| LowCorrelation.

Record entry_analysis := {
  should_enter : bool;
  score : nat;
  reasons : list reason;
  position_size : Q
}.

(** The five tests of lines 1636-1653. *)
Record checks := {
  momentum_ok : bool;
  volume_ok : bool;
  liquidity_ok : bool;
  positions_ok : bool;
  correlation_ok : bool
}.

Definition entry_checks (ecfg : entry_config) (pcfg : position_config)
    (price_data : list Q) (volume24h liquidity : Q) (open_positions : nat)
    (correlation : bool) : checks :=
  {| momentum_ok :=
       Qle_bool (momentum_threshold ecfg) (_calculate_momentum price_data);
     volume_ok := Qle_bool (volume_threshold ecfg) volume24h;
     liquidity_ok := Qle_bool (min_liquidity ecfg) liquidity;
     positions_ok := Nat.ltb open_positions (max_open_positions pcfg);
     correlation_ok := correlation |}.

(** [analyze_entry_opportunity], lines 1630-1684, on the values its
    fetchers returned: the price history, the 24h volume, the
    liquidity, the portfolio value, the number of open positions and the
    answer of [_check_correlation]. *)
Definition analyze_entry_opportunity (ecfg : entry_config)
    (pcfg : position_config) (price_data : list Q)
    (volume24h liquidity portfolio_value : Q) (open_positions : nat)
    (correlation : bool) : entry_analysis :=
  let c := entry_checks ecfg pcfg price_data volume24h liquidity
             open_positions correlation in
  let momentum := _calculate_momentum price_data in
  let max_position := portfolio_value * max_position_size pcfg in
  let min_position := portfolio_value * min_position_size pcfg in
  let entry_score :=
    ((if momentum_ok c then 30 else 0) +
     (if volume_ok c then 20 else 0) +
     (if liquidity_ok c then 20 else 0) +
     (if positions_ok c then 15 else 0) +
     (if correlation_ok c then 15 else 0))%nat in
  {| should_enter := Nat.leb 75 entry_score;
     score := entry_score;
     reasons :=
       ((if momentum_ok c then [StrongMomentum (momentum * 100)] else []) ++
        (if volume_ok c then [GoodVolume volume24h] else []) ++
        (if liquidity_ok c then [SufficientLiquidity liquidity] else []) ++
        (if positions_ok c then [PositionLimitNotReached] else []) ++
        (if correlation_ok c then [LowCorrelation] else []))%list;
     position_size :=
       Py.min2 max_position (Py.max2 min_position (liquidity * 0.02)) |}.

(** [_score_twitter_data]: each argument is [data.get(key, 0)], so a
    missing key is [None]. *)
Definition _score_twitter_data (recent_mentions engagement_rate
    influencer_mentions : option Q) : Q :=
  let mentions := default 0 recent_mentions in
  let engagement := default 0 engagement_rate in
  let influencer_count := default 0 influencer_mentions in
  let s1 :=
    if Qle_bool 1000 mentions then 40
    else if Qle_bool 500 mentions then 30
    else if Qle_bool 100 mentions then 20
    else 0 in
  let s2 := if Qle_bool 0.1 engagement then 30 else 0 in
  let s3 := if Qle_bool 3 influencer_count then 30 else 0 in
  Py.min2 (s1 + s2 + s3) 100.

End SolanaEntry.

(** ** sim_trader.py: performance metrics and sessions *)

Module TraderSession.
Local Open Scope Q_scope.
Import SimulatedTrader.

(** The dict returned by [get_performance_metrics]. *)
Record metrics := {
  m_current_balance : Q;
  m_initial_balance : Q;
  m_total_trades : nat;
  win_rate : Q;
  roi : Q;
  active_positions : nat;
  m_trade_history : list trade
}.

(** [l[-k:]] *)
Definition last_items {A : Type} (k : nat) (l : list A) : list A :=
  skipn (length l - k) l.

(** [get_performance_metrics], lines 135-148.  Dividing by a zero
    initial balance raises, and nothing catches it: [None]. *)
Definition get_performance_metrics (t : trader) : option metrics :=
  let rate :=
    if Nat.ltb 0 (total_trades t)
    then inject_Z (Z.of_nat (wins t)) / inject_Z (Z.of_nat (total_trades t)) * 100
    else 0 in
  if Qeq_bool (initial_balance t) 0 then None
  else
    Some {| m_current_balance := current_balance t;
            m_initial_balance := initial_balance t;
            m_total_trades := total_trades t;
            win_rate := rate;
            roi := (current_balance t / initial_balance t - 1) * 100;
            active_positions := size (positions t);
            m_trade_history := last_items 100 (trade_history t) |}.

(** The calls a user of the trader can make. *)
Inductive command :=
| Trade (token action : string) (amount_arg price : Q)
| Update (market_data : list (string * Q)).

Definition step (t : trader) (c : command) : trader :=
  match c with
  | Trade token action a price => fst (execute_trade t token action a price)
  | Update market_data => fst (update_positions t market_data)
  end.

(** A session: the calls made, in order, on a trader. *)
Definition run (t : trader) (cs : list command) : trader :=
  fold_left step cs t.

(** The writes that [update_positions] makes to a position dict. *)
Inductive mutation : (position -> position) -> Prop :=
| mutate_price (v : Q) : mutation (set_current_price v)
| mutate_amount (d : Q) : mutation (sub_amount d)
| mutate_reserve : mutation reserve_moonbag.

(** The exit levels of a position are those computed at entry from the
    default settings. *)
Definition levels_at_entry (p : position) : Prop :=
  stop_loss p = entry_price p * (1 - 0.08) /\
  take_profits p =
    {| first := entry_price p * 1.30; second := entry_price p * 1.80;
       moonbag := entry_price p * 5.00 |}.

(** A position as it was bought: its size is its amount at its entry
    price and the moonbag flag is unset. *)
Definition pristine (p : position) : Prop :=
  position_size p = amount p * entry_price p /\ moonbag_reserved p = false.

(** No two tokens refer to the same position dict. *)
Definition table_injective (t : trader) : Prop :=
  forall k1 k2 r,
    positions t !! k1 = Some r -> positions t !! k2 = Some r -> k1 = k2.

(** No token refers to the dict [r]. *)
Definition orphan (r : nat) (t : trader) : Prop :=
  forall k, positions t !! k <> Some r.

(** The table is sound and every open position is as it was bought. *)
Definition whole (t : trader) : Prop :=
  store_ok t /\ table_injective t /\
  forall token r, positions t !! token = Some r -> pristine (deref t r).

(** What a SELL call made by [update_positions] leaves: the trader is
    still whole, the token is out of the table and its dict is an
    orphan. *)
Definition sold_off (token : string) (r : nat) (t : trader) : Prop :=
  whole t /\ orphan r t /\ positions t !! token = None.

(** The settings fixed by [__init__] that no call writes. *)
Definition settings (t : trader) : Q * Q * Q * levels :=
  (initial_balance t, max_position_size t, stop_loss_pct t,
   take_profit_levels t).

(** The number of calls of a log that were reported successful. *)
Definition successes (log : list call) : nat :=
  length (filter (fun c => succeeded (outcome c) = true) log).

(** The two ways a price update can end for a token: no successful
    call, the table entry and the balance as before; or one successful
    call, the token gone from the table and the whole amount of the
    position credited at the price. *)
Definition untouched (token : string) (t : trader) (out : trader * list call)
  : Prop :=
  successes (snd out) = 0%nat /\
  positions (fst out) !! token = positions t !! token /\
  current_balance (fst out) = current_balance t.

Definition closed_out (token : string) (t : trader) (r : nat) (price : Q)
    (out : trader * list call) : Prop :=
  successes (snd out) = 1%nat /\
  positions (fst out) !! token = None /\
  current_balance (fst out) = current_balance t + amount (deref t r) * price.

(** The counters agree with each other and with the history. *)
Definition counters_ok (t : trader) : Prop :=
  (wins t + losses t = total_trades t)%nat /\
  total_trades t = length (trade_history t).

End TraderSession.

(** * Properties *)

(** ** Risk scoring *)

Section RiskBounds.
Import RiskCalculator.
Local Open Scope Q_scope.


(** The default table is a non-negative configuration of sum 1. *)
Lemma default_weights_ok :
  nonneg_weights default_weights /\ weights_sum default_weights == 1.
Proof. unfold nonneg_weights, weights_sum; cbn. repeat split; lra. Qed.

(** Scenario D of the specification: 90/90/80/90/90 under the default
    weights scores 88.5, a "High Risk" total. *)
Example scenario_D :
  total_risk default_weights
    {| volatility_risk := 90; liquidity_risk := 90; spread_risk := 80;
       volume_risk := 90; smart_contract_risk := 90 |} == 88.5
  /\ get_risk_level 88.5 = "High Risk"%string.
Proof. split; reflexivity. Qed.




End RiskBounds.

(** ** Insertion-ordered dicts *)

Section DictFacts.
Context {V : Type}.
Implicit Types (d : list (string * V)) (k : string) (v : V).

Lemma dict_set_elim d k v k' v' :
  In (k, v) (Py.dict_set k' v' d) -> (k, v) = (k', v') \/ In (k, v) d.
Proof.
  induction d as [|[k0 v0] d IH]; simpl.
  - intros [H|[]]. left; congruence.
  - destruct (String.eqb k' k0).
    + intros [H|H]; [left; congruence | right; right; exact H].
    + intros [H|H]; [right; left; exact H |].
      destruct (IH H) as [E|E]; [left | right; right]; exact E.
Qed.

Lemma dict_set_new d k v : In (k, v) (Py.dict_set k v d).
Proof.
  induction d as [|[k0 v0] d IH]; simpl.
  - left; reflexivity.
  - destruct (String.eqb k k0); [left; reflexivity | right; exact IH].
Qed.

Lemma dict_set_other d k v k' v' :
  k <> k' -> In (k, v) d -> In (k, v) (Py.dict_set k' v' d).
Proof.
  intros Hne. induction d as [|[k0 v0] d IH]; simpl; [intros [] |].
  destruct (String.eqb_spec k' k0) as [->|Hk].
  - intros [H|H]; [congruence | right; exact H].
  - intros [H|H]; [left; exact H | right; exact (IH H)].
Qed.


End DictFacts.

(** ** [min] and [max] over the items of a quote map *)

Section Extrema.
Local Open Scope Q_scope.

Lemma min_from_first_min l : forall b, Py.first_min (b :: l) (Py.min_from b l).
Proof.
  induction l as [|x0 r IH]; intros b; simpl.
  - exists [], []. repeat split; simpl; intros y [].
  - destruct (Qlt_le_dec (snd x0) (snd b)) as [Hlt|Hle].
    + destruct (IH x0) as (l1 & l2 & E & H1 & H2).
      exists (b :: l1), l2. split; [simpl; f_equal; exact E |].
      split; [| exact H2].
      assert (Hx0 : snd (Py.min_from x0 r) <= snd x0).
      { destruct l1 as [|z l1]; simpl in E.
        - injection E as E _. rewrite <- E. apply Qle_refl.
        - injection E as E _. apply Qlt_le_weak, H1. left; symmetry; exact E. }
      intros y [<-|Hy]; [eapply Qle_lt_trans; eassumption | exact (H1 y Hy)].
    + destruct (IH b) as (l1 & l2 & E & H1 & H2).
      destruct l1 as [|z l1]; simpl in E.
      * injection E as E E'. exists [], (x0 :: l2).
        split; [simpl; f_equal; [exact E | f_equal; exact E'] |].
        split; [intros y [] |].
        intros y [<-|Hy]; [rewrite <- E; exact Hle | exact (H2 y Hy)].
      * injection E as E E'. subst z.
        exists (b :: x0 :: l1), l2.
        split; [simpl; do 2 f_equal; exact E' |].
        split; [| exact H2].
        assert (Hb : snd (Py.min_from b r) < snd b) by (apply H1; left; reflexivity).
        intros y [<-|[<-|Hy]].
        -- exact Hb.
        -- eapply Qlt_le_trans; eassumption.
        -- apply H1. right; exact Hy.
Qed.

Lemma max_from_first_max l : forall b, Py.first_max (b :: l) (Py.max_from b l).
Proof.
  induction l as [|x0 r IH]; intros b; simpl.
  - exists [], []. repeat split; simpl; intros y [].
  - destruct (Qlt_le_dec (snd b) (snd x0)) as [Hlt|Hle].
    + destruct (IH x0) as (l1 & l2 & E & H1 & H2).
      exists (b :: l1), l2. split; [simpl; f_equal; exact E |].
      split; [| exact H2].
      assert (Hx0 : snd x0 <= snd (Py.max_from x0 r)).
      { destruct l1 as [|z l1]; simpl in E.
        - injection E as E _. rewrite <- E. apply Qle_refl.
        - injection E as E _. apply Qlt_le_weak, H1. left; symmetry; exact E. }
      intros y [<-|Hy]; [eapply Qlt_le_trans; eassumption | exact (H1 y Hy)].
    + destruct (IH b) as (l1 & l2 & E & H1 & H2).
      destruct l1 as [|z l1]; simpl in E.
      * injection E as E E'. exists [], (x0 :: l2).
        split; [simpl; f_equal; [exact E | f_equal; exact E'] |].
        split; [intros y [] |].
        intros y [<-|Hy]; [rewrite <- E; exact Hle | exact (H2 y Hy)].
      * injection E as E E'. subst z.
        exists (b :: x0 :: l1), l2.
        split; [simpl; do 2 f_equal; exact E' |].
        split; [| exact H2].
        assert (Hb : snd b < snd (Py.max_from b r)) by (apply H1; left; reflexivity).
        intros y [<-|[<-|Hy]].
        -- exact Hb.
        -- eapply Qle_lt_trans; eassumption.
        -- apply H1. right; exact Hy.
Qed.

Lemma first_min_In l x : Py.first_min l x -> In x l.
Proof. intros (l1 & l2 & -> & _). apply in_or_app. right; left; reflexivity. Qed.

Lemma first_max_In l x : Py.first_max l x -> In x l.
Proof. intros (l1 & l2 & -> & _). apply in_or_app. right; left; reflexivity. Qed.

Lemma first_min_le l x y : Py.first_min l x -> In y l -> snd x <= snd y.
Proof.
  intros (l1 & l2 & -> & H1 & H2) Hy.
  apply in_app_or in Hy as [Hy|[<-|Hy]].
  - apply Qlt_le_weak, H1, Hy.
  - apply Qle_refl.
  - apply H2, Hy.
Qed.

Lemma first_max_ge l x y : Py.first_max l x -> In y l -> snd y <= snd x.
Proof.
  intros (l1 & l2 & -> & H1 & H2) Hy.
  apply in_app_or in Hy as [Hy|[<-|Hy]].
  - apply Qlt_le_weak, H1, Hy.
  - apply Qle_refl.
  - apply H2, Hy.
Qed.

End Extrema.

Section ExtremaMore.
Local Open Scope Q_scope.

Lemma extremes_of_first l x y b s :
  Py.first_min (x :: y :: l) b -> Py.first_max (x :: y :: l) s ->
  Py.extremes (x :: y :: l) b s.
Proof.
  intros Hb Hs. unfold Py.extremes. split; [simpl; lia |].
  split; [exact (first_min_le _ _ _ Hb (first_max_In _ _ Hs)) |].
  split; [exact (first_min_In _ _ Hb) |].
  split; [exact (first_max_In _ _ Hs) |].
  intros z Hz. split.
  - exact (first_min_le _ _ _ Hb Hz).
  - exact (first_max_ge _ _ _ Hs Hz).
Qed.

(** The first minimum is unique: the choice is fixed by the ordered
    map alone. *)
Lemma first_min_unique l x y : Py.first_min l x -> Py.first_min l y -> x = y.
Proof.
  intros (a1 & a2 & -> & A1 & A2) (b1 & b2 & E & B1 & B2).
  apply app_eq_app in E as [m [[E1 E2]|[E1 E2]]].
  - destruct m as [|z m]; simpl in E2; [congruence |].
    injection E2 as Ez Eb. subst z b2 a1. exfalso.
    assert (Hyx : snd y <= snd x) by (apply B2, in_or_app; right; left; reflexivity).
    assert (Hxy : snd x < snd y) by (apply A1, in_or_app; right; left; reflexivity).
    exact (Qlt_not_le _ _ Hxy Hyx).
  - destruct m as [|z m]; simpl in E2; [congruence |].
    injection E2 as Ez Ea. subst z a2 b1. exfalso.
    assert (Hxy : snd x <= snd y) by (apply A2, in_or_app; right; left; reflexivity).
    assert (Hyx : snd y < snd x) by (apply B1, in_or_app; right; left; reflexivity).
    exact (Qlt_not_le _ _ Hyx Hxy).
Qed.

Lemma first_max_unique l x y : Py.first_max l x -> Py.first_max l y -> x = y.
Proof.
  intros (a1 & a2 & -> & A1 & A2) (b1 & b2 & E & B1 & B2).
  apply app_eq_app in E as [m [[E1 E2]|[E1 E2]]].
  - destruct m as [|z m]; simpl in E2; [congruence |].
    injection E2 as Ez Eb. subst z b2 a1. exfalso.
    assert (Hyx : snd x <= snd y) by (apply B2, in_or_app; right; left; reflexivity).
    assert (Hxy : snd y < snd x) by (apply A1, in_or_app; right; left; reflexivity).
    exact (Qlt_not_le _ _ Hxy Hyx).
  - destruct m as [|z m]; simpl in E2; [congruence |].
    injection E2 as Ez Ea. subst z a2 b1. exfalso.
    assert (Hxy : snd y <= snd x) by (apply A2, in_or_app; right; left; reflexivity).
    assert (Hyx : snd x < snd y) by (apply B1, in_or_app; right; left; reflexivity).
    exact (Qlt_not_le _ _ Hyx Hxy).
Qed.

End ExtremaMore.

(** ** Opportunity detection *)

Section Detection.
Import DEXManager.
Local Open Scope Q_scope.

(** What an emitted opportunity was built from. *)
Lemma detect_emitted pair_name dex_prices minp o :
  detect pair_name dex_prices minp = Emitted o ->
  exists x y r,
    dex_prices = x :: y :: r /\
    pair o = pair_name /\
    (buy_dex o, buy_price o) = Py.min_from x (y :: r) /\
    (sell_dex o, sell_price o) = Py.max_from x (y :: r) /\
    ~ buy_price o == 0 /\
    profit_percentage o == (sell_price o - buy_price o) / buy_price o * 100 /\
    minp <= profit_percentage o.
Proof.
  unfold detect. destruct dex_prices as [|x [|y r]]; try discriminate.
  destruct (Qeq_bool (snd (Py.min_from x (y :: r))) 0) eqn:Hz; [discriminate |].
  match goal with |- context [Qle_bool minp ?p] =>
    destruct (Qle_bool minp p) eqn:Hp end; [| discriminate].
  intros [= <-]. exists x, y, r. cbn [pair buy_dex buy_price sell_dex sell_price
                                      profit_percentage].
  repeat split.
  - symmetry. apply surjective_pairing.
  - symmetry. apply surjective_pairing.
  - apply Qeq_bool_neq, Hz.
  - apply Qle_bool_iff, Hp.
Qed.

Lemma detect_first pair_name dex_prices minp o :
  detect pair_name dex_prices minp = Emitted o ->
  Py.first_min dex_prices (buy_dex o, buy_price o) /\
  Py.first_max dex_prices (sell_dex o, sell_price o).
Proof.
  intros H. apply detect_emitted in H as (x & y & r & -> & _ & Hb & Hs & _).
  rewrite Hb, Hs. split; [apply min_from_first_min | apply max_from_first_max].
Qed.

Lemma best_spread_first base quote prices minp o :
  ArbitrageBot.best_spread base quote prices minp = Some o ->
  Py.first_min prices (ArbitrageBot.buy_dex o, ArbitrageBot.buy_price o) /\
  Py.first_max prices (ArbitrageBot.sell_dex o, ArbitrageBot.sell_price o).
Proof.
  unfold ArbitrageBot.best_spread. destruct prices as [|x [|y r]]; try discriminate.
  match goal with |- context [Qle_bool minp ?p] =>
    destruct (Qle_bool minp p) end; [| discriminate].
  intros [= <-]. cbn [ArbitrageBot.buy_dex ArbitrageBot.buy_price
                      ArbitrageBot.sell_dex ArbitrageBot.sell_price].
  rewrite <- !surjective_pairing.
  split; [exact (min_from_first_min (y :: r) x)
         | exact (max_from_first_max (y :: r) x)].
Qed.

(** C3: whenever the detector emits an opportunity from a quote map,
    the map holds at least two venues, the buy price is at most the
    sell price, the buy venue is in the map at the least price and the
    sell venue is in the map at the greatest price.  This holds for
    [DEXManager.get_arbitrage_opportunities] and for
    [ArbitrageBot.find_arbitrage_opportunity]. *)
Theorem emitted_buy_le_sell :
  (forall pair_name dex_prices minp o,
      detect pair_name dex_prices minp = Emitted o ->
      Py.extremes dex_prices (buy_dex o, buy_price o)
                  (sell_dex o, sell_price o)) /\
  (forall base quote prices min_usd o,
      ArbitrageBot.best_spread base quote prices min_usd = Some o ->
      Py.extremes prices
                  (ArbitrageBot.buy_dex o, ArbitrageBot.buy_price o)
                  (ArbitrageBot.sell_dex o, ArbitrageBot.sell_price o)).
Proof.
  split.
  - intros pair_name dex_prices minp o H.
    destruct (detect_first _ _ _ _ H) as [Hb Hs].
    apply detect_emitted in H as (x & y & r & -> & _).
    apply extremes_of_first; assumption.
  - intros base quote prices min_usd o H.
    destruct (best_spread_first _ _ _ _ _ H) as [Hb Hs].
    unfold ArbitrageBot.best_spread in H.
    destruct prices as [|x [|y r]]; try discriminate.
    apply extremes_of_first; assumption.
Qed.

(** Scenario A of the specification: 1.00 against 1.06 with a 3%
    threshold gives a 6% opportunity, bought on the first venue and
    sold on the second. *)
Lemma emitted_buy_le_sell_witness :
  exists o,
    detect "SOL-USDC" [("VenueX", 1.00); ("VenueY", 1.06)] 3 = Emitted o /\
    buy_dex o = "VenueX" /\ sell_dex o = "VenueY" /\
    profit_percentage o == 6 /\
    Py.extremes [("VenueX", 1.00); ("VenueY", 1.06)]
                (buy_dex o, buy_price o) (sell_dex o, sell_price o).
Proof.
  eexists. split; [vm_compute; reflexivity |].
  split; [reflexivity |]. split; [reflexivity |]. split; [reflexivity |].
  apply (proj1 emitted_buy_le_sell "SOL-USDC" _ 3). vm_compute. reflexivity.
Defined.

End Detection.

Section TieBreak.
Import DEXManager.
Local Open Scope Q_scope.

(** C7, as stated, fails: Raydium and Orca quote the same lowest
    price and Orca is the more liquid (and lexically first), yet the
    detector buys on Raydium; Saros and Marinade quote the same
    highest price and Marinade is the more liquid (and lexically
    first), yet the detector sells on Saros. *)
Lemma tie_not_broken_by_liquidity :
  exists o,
    detect "SOL-USDC" (SpecDetector.price_map Fixtures.tied_quotes) 1
      = Emitted o /\
    buy_dex o = "Raydium" /\
    SpecDetector.spec_buy_venue Fixtures.tied_quotes = Some "Orca" /\
    sell_dex o = "Saros" /\
    SpecDetector.spec_sell_venue Fixtures.tied_quotes = Some "Marinade".
Proof.
  eexists. split; [vm_compute; reflexivity |].
  repeat split; vm_compute; reflexivity.
Qed.

(** C7 (amended): among venues quoting the same minimum (maximum)
    price the detector selects the one that comes first in the order
    of the quote map; liquidity and venue names are not compared.
    The selected items are the only ones with that property, so the
    output is determined by the ordered quote map and the
    threshold. *)
Theorem tie_broken_by_map_order pair_name dex_prices minp o :
  detect pair_name dex_prices minp = Emitted o ->
  Py.first_min dex_prices (buy_dex o, buy_price o) /\
  Py.first_max dex_prices (sell_dex o, sell_price o) /\
  (forall b, Py.first_min dex_prices b -> b = (buy_dex o, buy_price o)) /\
  (forall s, Py.first_max dex_prices s -> s = (sell_dex o, sell_price o)) /\
  (forall o', detect pair_name dex_prices minp = Emitted o' -> o' = o).
Proof.
  intros H. destruct (detect_first _ _ _ _ H) as [Hb Hs].
  split; [exact Hb |]. split; [exact Hs |]. split; [| split].
  - intros b Hb'. exact (first_min_unique _ _ _ Hb' Hb).
  - intros s Hs'. exact (first_max_unique _ _ _ Hs' Hs).
  - intros o' H'. congruence.
Qed.

Lemma tie_broken_by_map_order_witness :
  exists o,
    detect "SOL-USDC" (SpecDetector.price_map Fixtures.tied_quotes) 1
      = Emitted o /\
    Py.first_min (SpecDetector.price_map Fixtures.tied_quotes)
                 (buy_dex o, buy_price o) /\
    (buy_dex o, sell_dex o) = ("Raydium", "Saros").
Proof.
  eexists. split; [vm_compute; reflexivity |]. split.
  - apply (tie_broken_by_map_order "SOL-USDC" _ 1). vm_compute. reflexivity.
  - reflexivity.
Defined.

End TieBreak.

(** ** Price aggregation *)

Section Aggregation.
Import DEXManager.
Local Open Scope Q_scope.

Variable f : string -> fetched.

(** The venues stored by the collecting loop are those whose call
    returned a positive number. *)
Lemma collect_positive_spec (ds : list string) :
  forall acc,
    (forall d p, In (d, p) acc -> f d = Returned p) ->
    forall d p,
      In (d, p) (collect_positive (map (fun n => (n, f n)) ds) acc) <->
      In (d, p) acc \/ (In d ds /\ f d = Returned p /\ 0 < p).
Proof.
  induction ds as [|a ds IH]; intros acc Hacc d p; simpl.
  - split; [intros H; left; exact H | intros [H|[[] _]]; exact H].
  - destruct (f a) as [x|] eqn:Ha.
    + destruct (Qlt_le_dec 0 x) as [Hpos|Hneg].
      * rewrite IH.
        -- split.
           ++ intros [H|(Hd & Hf & Hp)].
              ** apply dict_set_elim in H as [[= -> ->]|H]; [right | left; exact H].
                 split; [left; reflexivity | split; assumption].
              ** right. split; [right; exact Hd | split; assumption].
           ++ intros [H|([<-|Hd] & Hf & Hp)].
              ** left. destruct (string_dec d a) as [->|Hne].
                 --- apply Hacc in H. rewrite Ha in H. injection H as ->.
                     apply dict_set_new.
                 --- apply dict_set_other; assumption.
              ** left. rewrite Ha in Hf. injection Hf as ->. apply dict_set_new.
              ** right. split; [exact Hd | split; assumption].
        -- intros d' p' H. apply dict_set_elim in H as [[= -> ->]|H];
             [exact Ha | exact (Hacc _ _ H)].
      * rewrite IH by exact Hacc. split.
        -- intros [H|(Hd & Hf & Hp)]; [left; exact H |].
           right. split; [right; exact Hd | split; assumption].
        -- intros [H|([<-|Hd] & Hf & Hp)]; [left; exact H | |].
           ++ exfalso. rewrite Ha in Hf. injection Hf as ->.
              exact (Qlt_not_le _ _ Hp Hneg).
           ++ right. split; [exact Hd | split; assumption].
    + rewrite IH by exact Hacc. split.
      * intros [H|(Hd & Hf & Hp)]; [left; exact H |].
        right. split; [right; exact Hd | split; assumption].
      * intros [H|([<-|Hd] & Hf & Hp)]; [left; exact H | |].
        -- rewrite Ha in Hf. discriminate.
        -- right. split; [exact Hd | split; assumption].
Qed.

End Aggregation.

Section AllPrices.
Import DEXManager.
Local Open Scope Q_scope.

Variables (m : market) (g : manager).

Lemma pair_prices_spec base quote d p :
  In (d, p) (pair_prices m g base quote) <->
  In d (dexes g) /\ get_price m d base quote = Returned p /\ 0 < p.
Proof.
  unfold pair_prices.
  rewrite (collect_positive_spec (fun n => get_price m n base quote)).
  - split; [intros [[]|H]; exact H | intros H; right; exact H].
  - intros d' p' [].
Qed.

Lemma pair_prices_positive base quote d p :
  In (d, p) (pair_prices m g base quote) -> 0 < p.
Proof. intros H. apply pair_prices_spec in H. tauto. Qed.

Lemma fold_prices_entries pairs : forall acc key dp,
  In (key, dp) (fold_left (store_pair m g) pairs acc) ->
  In (key, dp) acc \/
  exists base quote, In (base, quote) pairs /\ key = pair_key base quote /\
                     dp = pair_prices m g base quote.
Proof.
  induction pairs as [|[b q] pairs IH]; intros acc key dp; simpl.
  - intros H; left; exact H.
  - intros H. apply IH in H as [H|(b' & q' & Hin & Hk & Hd)].
    + unfold store_pair in H; simpl in H.
      apply dict_set_elim in H as [[= -> ->]|H]; [right | left; exact H].
      exists b, q. split; [left; reflexivity | split; reflexivity].
    + right. exists b', q'. split; [right; exact Hin | split; assumption].
Qed.




Lemma all_prices_positive key dp d p :
  In (key, dp) (get_all_prices m g) -> In (d, p) dp -> 0 < p.
Proof.
  intros H Hd.
  apply (fold_prices_entries _ []) in H as [[]|(b & q & _ & _ & ->)].
  exact (pair_prices_positive _ _ _ _ Hd).
Qed.

End AllPrices.

Section AggregationExamples.
Import DEXManager.
Local Open Scope Q_scope.

(** In [thin_market] Jupiter raises, Saros answers 0.0 and Marinade a
    negative price: the round still returns the two good quotes. *)
Example thin_market_prices :
  get_all_prices Fixtures.thin_market Fixtures.sol_only =
    [("SOL-USDC", [("Raydium", 1.00); ("Orca", 1.06)])].
Proof. reflexivity. Qed.


End AggregationExamples.

Section Gating.
Import DEXManager.
Local Open Scope Q_scope.

Lemma detect_no_division_error pair_name dex_prices minp :
  (forall d p, In (d, p) dex_prices -> 0 < p) ->
  detect pair_name dex_prices minp <> ZeroDivisionError.
Proof.
  intros Hpos. unfold detect. destruct dex_prices as [|x [|y r]]; try discriminate.
  destruct (Qeq_bool (snd (Py.min_from x (y :: r))) 0) eqn:Hz.
  - exfalso. apply Qeq_bool_eq in Hz.
    pose proof (first_min_In _ _ (min_from_first_min (y :: r) x)) as Hin.
    destruct (Py.min_from x (y :: r)) as [d p]. apply Hpos in Hin.
    simpl in Hz. rewrite Hz in Hin. exact (Qlt_irrefl 0 Hin).
  - destruct (Qle_bool _ _); discriminate.
Qed.

Lemma scan_total prices minp :
  (forall key dp, In (key, dp) prices -> forall d p, In (d, p) dp -> 0 < p) ->
  forall acc, exists opps, scan prices minp acc = Some opps.
Proof.
  induction prices as [|[key dp] prices IH]; intros Hpos acc; simpl.
  - eexists; reflexivity.
  - destruct (detect key dp minp) eqn:Hd.
    + exfalso. revert Hd. apply detect_no_division_error.
      apply (Hpos key dp). left; reflexivity.
    + apply IH. intros k' dp' H. apply (Hpos k' dp'). right; exact H.
    + apply IH. intros k' dp' H. apply (Hpos k' dp'). right; exact H.
Qed.

Lemma scan_In prices minp : forall acc opps o,
  scan prices minp acc = Some opps -> In o opps ->
  In o acc \/
  exists key dp, In (key, dp) prices /\ detect key dp minp = Emitted o.
Proof.
  induction prices as [|[key dp] prices IH]; intros acc opps o; simpl.
  - intros [= <-] H; left; exact H.
  - destruct (detect key dp minp) eqn:Hd; [discriminate | |]; intros Hs Ho.
    + destruct (IH _ _ _ Hs Ho) as [H|(k' & dp' & Hin & He)]; [left; exact H |].
      right. exists k', dp'. split; [right; exact Hin | exact He].
    + destruct (IH _ _ _ Hs Ho) as [H|(k' & dp' & Hin & He)].
      * apply in_app_or in H as [H|[<-|[]]]; [left; exact H |].
        right. exists key, dp. split; [left; reflexivity | exact Hd].
      * right. exists k', dp'. split; [right; exact Hin | exact He].
Qed.

(** C5, as stated, fails: no venue of [thin_market] has any liquidity
    ([get_liquidity] answers 0 everywhere, so [get_liquidity_info]
    lists no venue and no positive floor is met), and the 6% spread
    between Raydium and Orca is emitted all the same. *)
Lemma illiquid_spread_is_emitted :
  exists o,
    get_arbitrage_opportunities Fixtures.thin_market Fixtures.sol_only 1
      = Some [o] /\
    buy_dex o = "Raydium" /\ sell_dex o = "Orca" /\
    1 <= profit_percentage o /\
    get_liquidity_info Fixtures.thin_market Fixtures.sol_only ("SOL", "USDC")
      = [] /\
    ~ SpecDetector.liquid Fixtures.thin_market 1 (buy_dex o) "SOL" "USDC" /\
    ~ SpecDetector.liquid Fixtures.thin_market 1 (sell_dex o) "SOL" "USDC".
Proof.
  eexists. split; [vm_compute; reflexivity |].
  split; [reflexivity |]. split; [reflexivity |].
  split; [vm_compute; discriminate |]. split; [reflexivity |].
  split; vm_compute; intros H; apply H; reflexivity.
Qed.

(** C5 (amended): [get_arbitrage_opportunities] always returns, and an
    opportunity is emitted only if its spread percentage
    (sell - buy) / buy * 100, over a positive buy price, is at least
    [min_profit_percentage].  Venue liquidity is not consulted: the
    result is the same whatever the venues answer to
    [get_liquidity]. *)
Theorem opportunities_gated_by_spread_only (m : market) (g : manager) (minp : Q) :
  exists opps,
    get_arbitrage_opportunities m g minp = Some opps /\
    (forall o, In o opps ->
       minp <= profit_percentage o /\
       profit_percentage o == (sell_price o - buy_price o) / buy_price o * 100 /\
       0 < buy_price o) /\
    (forall liq,
       get_arbitrage_opportunities
         {| get_price := get_price m; get_liquidity := liq |} g minp
       = Some opps).
Proof.
  destruct (scan_total (get_all_prices m g) minp
              (fun key dp H d p => all_prices_positive m g key dp d p H) [])
    as [opps Hs].
  exists opps. split; [exact Hs |]. split; [| intros liq; exact Hs].
  intros o Ho.
  destruct (scan_In _ _ _ _ _ Hs Ho) as [[]|(key & dp & Hin & He)].
  pose proof (detect_first _ _ _ _ He) as [Hb _].
  apply first_min_In in Hb.
  apply (all_prices_positive m g key dp) in Hb; [| exact Hin].
  apply detect_emitted in He as (_ & _ & _ & _ & _ & _ & _ & _ & Hpct & Hmin).
  split; [exact Hmin | split; [exact Hpct | exact Hb]].
Qed.

End Gating.

(** ** Exit analysis *)

Section ExitAnalysis.
Import SolanaTrader.
Local Open Scope Q_scope.

(** C6, as stated, fails: with the default configuration, entry and
    current price 1.00 and a trailing high of 1.20, the price has
    never reached the 20% take-profit, and the 16.7% retracement alone
    makes [analyze_exit_opportunity] ask for the exit. *)
Lemma trailing_stop_exits_without_profit :
  let a := analyze_exit_opportunity default_exit 1.00
             {| hold_time := 1800; trailing_high := 1.2 |} 1.00 in
  should_exit a = true /\
  price_change a == 0 /\
  exists pct, reasons a = [TrailingStopHit pct] /\ pct == 50 / 3.
Proof.
  cbv zeta. split; [reflexivity |]. split; [reflexivity |].
  eexists. split; reflexivity.
Qed.

(** C6 (amended): whenever the retracement from the trailing high is
    at least [trailing_stop] (entry price and trailing high non-zero),
    [analyze_exit_opportunity] sets [should_exit] and reports the
    trailing stop, whether or not any profit target was reached. *)
Theorem trailing_stop_alone_exits (cfg : exit_config) (price : Q)
    (data : position_data) (entry_price : Q) :
  ~ entry_price == 0 -> ~ trailing_high data == 0 ->
  trailing_stop cfg <= (trailing_high data - price) / trailing_high data ->
  let a := analyze_exit_opportunity cfg price data entry_price in
  should_exit a = true /\
  In (TrailingStopHit ((trailing_high data - price) / trailing_high data * 100))
     (reasons a).
Proof.
  intros He Hh Hdrop. cbv zeta. unfold analyze_exit_opportunity.
  destruct (Qeq_bool entry_price 0) eqn:E1;
    [apply Qeq_bool_eq in E1; contradiction |].
  destruct (Qeq_bool (trailing_high data) 0) eqn:E2;
    [apply Qeq_bool_eq in E2; contradiction |].
  apply Qle_bool_iff in Hdrop. rewrite Hdrop. cbn [should_exit reasons]. split.
  - rewrite !orb_true_r. reflexivity.
  - apply in_or_app; right. apply in_or_app; right.
    apply in_or_app; left. left; reflexivity.
Qed.

Lemma trailing_stop_alone_exits_witness :
  should_exit (analyze_exit_opportunity default_exit 1.00
                 {| hold_time := 1800; trailing_high := 1.2 |} 1.00) = true.
Proof.
  apply (trailing_stop_alone_exits default_exit 1.00
           {| hold_time := 1800; trailing_high := 1.2 |} 1.00).
  - vm_compute. discriminate.
  - vm_compute. discriminate.
  - vm_compute. discriminate.
Defined.

End ExitAnalysis.

(** ** The simulated trader *)

Section Trader.
Import SimulatedTrader.
Local Open Scope Q_scope.

Lemma deref_write t r f :
  deref (write t r f) r = f (deref t r) \/ deref (write t r f) r = deref t r.
Proof.
  unfold deref, write; cbn [objects].
  rewrite list_lookup_total_alter. case_decide; [left | right]; reflexivity.
Qed.

Lemma deref_set_current_price t r price :
  let p := deref (write t r (set_current_price price)) r in
  amount p = amount (deref t r) /\
  stop_loss p = stop_loss (deref t r) /\
  take_profits p = take_profits (deref t r) /\
  moonbag_reserved p = moonbag_reserved (deref t r).
Proof.
  cbv zeta. destruct (deref_write t r (set_current_price price)) as [-> | ->];
    repeat split; reflexivity.
Qed.

(** A SELL for a token of the table. *)
Lemma execute_sell t token action a price r :
  Py.upper action = "SELL" -> positions t !! token = Some r ->
  execute_trade t token action a price =
    (close_position t token action (deref t r) price,
     Success (current_balance t + amount (deref t r) * price) action a price).
Proof.
  intros Hu Hr. unfold execute_trade. rewrite Hu, Hr. reflexivity.
Qed.

(** A SELL for a token that is not in the table. *)
Lemma execute_sell_absent t token action a price :
  Py.upper action = "SELL" -> positions t !! token = None ->
  execute_trade t token action a price =
    (t, Failure "No open position for this token").
Proof.
  intros Hu Hr. unfold execute_trade. rewrite Hu, Hr. reflexivity.
Qed.

(** C9: a BUY whose cost exceeds the balance, or whose size exceeds
    the maximum position size, returns a failure report and leaves the
    whole trader (balance, table of positions, store, history and
    counters) as it was. *)
Theorem failed_buy_changes_nothing (t : trader) (token action : string)
    (a price : Q) :
  Py.upper action = "BUY" ->
  current_balance t < a * price \/ max_position_size t < a * price ->
  exists error, execute_trade t token action a price = (t, Failure error).
Proof.
  intros Hu H. unfold execute_trade. rewrite Hu. cbn [String.eqb].
  change (String.eqb "BUY" "BUY") with true. cbv iota.
  destruct (Qlt_le_dec (current_balance t) (a * price)) as [Hb|Hb].
  - eexists; reflexivity.
  - destruct (Qlt_le_dec (max_position_size t) (a * price)) as [Hm|Hm].
    + eexists; reflexivity.
    + exfalso. destruct H as [H|H].
      * exact (Qlt_not_le _ _ H Hb).
      * exact (Qlt_not_le _ _ H Hm).
Qed.

Lemma failed_buy_changes_nothing_witness :
  (exists error, execute_trade (init 500) "T" "buy" 1000 1 = (init 500, Failure error)) /\
  (exists error, execute_trade (init 500) "T" "BUY" 100 1 = (init 500, Failure error)).
Proof.
  split.
  - apply failed_buy_changes_nothing; [reflexivity | left; reflexivity].
  - apply failed_buy_changes_nothing; [reflexivity | right; reflexivity].
Defined.

Lemma first_target_fires t token r price :
  positions t !! token = Some r ->
  first (take_profits (deref t r)) <= price ->
  first_target t token r price =
    (write (close_position t token "SELL" (deref t r) price) r
           (sub_amount (amount (deref t r) * 0.40)),
     [{| site := FirstTarget;
         requested := amount (deref t r) * 0.40;
         outcome := Success (current_balance t + amount (deref t r) * price)
                            "SELL" (amount (deref t r) * 0.40) price |}]).
Proof.
  intros Hr Hp. unfold first_target.
  apply Qle_bool_iff in Hp. rewrite Hp.
  rewrite (execute_sell t token "SELL" _ price r eq_refl Hr). reflexivity.
Qed.

(** C10: a successful SELL through [execute_trade] credits the whole
    [position['amount']] at the sell price and deletes the token from
    the table, whatever amount was asked for; in particular the
    first-target branch of [update_positions], which asks for 40% of
    the position, is credited with all of it and leaves no open
    position. *)
Theorem sell_is_full_exit (t : trader) (token : string) (r : nat) (price : Q) :
  positions t !! token = Some r ->
  (forall action a, Py.upper action = "SELL" ->
     let out := execute_trade t token action a price in
     snd out = Success (current_balance t + amount (deref t r) * price)
                       action a price /\
     current_balance (fst out) = current_balance t + amount (deref t r) * price /\
     positions (fst out) = delete token (positions t) /\
     positions (fst out) !! token = None) /\
  (first (take_profits (deref t r)) <= price ->
     let out := first_target t token r price in
     map requested (snd out) = [amount (deref t r) * 0.40] /\
     map (fun c => succeeded (outcome c)) (snd out) = [true] /\
     current_balance (fst out) = current_balance t + amount (deref t r) * price /\
     positions (fst out) !! token = None).
Proof.
  intros Hr. split.
  - intros action a Hu. cbv zeta. rewrite (execute_sell _ _ _ _ _ _ Hu Hr).
    cbn [fst snd close_position current_balance positions].
    repeat split. apply lookup_delete_eq.
  - intros Hp. cbv zeta. rewrite (first_target_fires _ _ _ _ Hr Hp).
    cbn [fst snd map requested outcome succeeded write close_position
         current_balance positions].
    repeat split. apply lookup_delete_eq.
Qed.

Lemma sell_is_full_exit_witness :
  let out := execute_trade bought_T "T" "sell" 4 1.31 in
  current_balance (fst out) = current_balance bought_T + amount (deref bought_T 0) * 1.31 /\
  current_balance (fst out) == 503.1 /\
  positions (fst out) !! "T" = None.
Proof.
  cbv zeta.
  destruct (proj1 (sell_is_full_exit bought_T "T" 0 1.31 eq_refl) "sell" 4 eq_refl)
    as (_ & Hb & _ & Hn).
  split; [exact Hb |]. split; [reflexivity | exact Hn].
Defined.

(** C4: when the new price is at or below the position's stop-loss,
    [update_positions] makes exactly one call to [execute_trade], from
    the stop-loss branch, for the whole amount; the call succeeds, the
    position leaves the table and no take-profit branch runs, whether
    or not a target price is reached as well. *)
Theorem stop_loss_precedes_targets (t : trader) (token : string) (r : nat)
    (price : Q) :
  positions t !! token = Some r ->
  price <= stop_loss (deref t r) ->
  let out := update_position t token price in
  map site (snd out) = [StopLoss] /\
  map requested (snd out) = [amount (deref t r)] /\
  map (fun c => succeeded (outcome c)) (snd out) = [true] /\
  current_balance (fst out) = current_balance t + amount (deref t r) * price /\
  positions (fst out) !! token = None.
Proof.
  intros Hr Hp. cbv zeta. unfold update_position. rewrite Hr.
  destruct (deref_set_current_price t r price) as (Ha & Hs & _ & _).
  rewrite Hs. apply Qle_bool_iff in Hp. rewrite Hp.
  rewrite (execute_sell (write t r (set_current_price price)) token "SELL"
             _ price r eq_refl Hr).
  cbn [fst snd map site requested outcome succeeded close_position write
       current_balance positions].
  rewrite Ha. repeat split. apply lookup_delete_eq.
Qed.

(** The position opened at price 0 has stop-loss 0 and first target
    0: at price 0 both conditions hold, and the stop-loss branch is
    the one that runs. *)
Lemma stop_loss_precedes_targets_witness :
  0 <= stop_loss (deref bought_free 0) /\
  first (take_profits (deref bought_free 0)) <= 0 /\
  map site (snd (update_position bought_free "T" 0)) = [StopLoss].
Proof.
  split; [vm_compute; discriminate |]. split; [vm_compute; discriminate |].
  apply (stop_loss_precedes_targets bought_free "T" 0 0 eq_refl).
  vm_compute. discriminate.
Defined.


(** The references of the table stay inside the store, so [deref]
    never reads past it. *)
Lemma store_ok_init balance : store_ok (init balance).
Proof. intros token r H. cbn in H. rewrite lookup_empty in H. discriminate. Qed.

Lemma store_ok_write t r f : store_ok t -> store_ok (write t r f).
Proof.
  intros H token r' Hr. unfold write in *; cbn [positions objects] in *.
  rewrite length_alter. exact (H token r' Hr).
Qed.

Lemma store_ok_execute_trade t token action a price :
  store_ok t -> store_ok (fst (execute_trade t token action a price)).
Proof.
  intros H. unfold execute_trade.
  destruct (String.eqb (Py.upper action) "BUY").
  - destruct (Qlt_le_dec _ _); [exact H |].
    destruct (Qlt_le_dec _ _); [exact H |].
    intros token' r' Hr. cbn [fst open_position positions objects] in *.
    rewrite length_app; simpl.
    destruct (decide (token = token')) as [->|Hne].
    + rewrite lookup_insert_eq in Hr. injection Hr as <-. lia.
    + rewrite lookup_insert_ne in Hr by exact Hne.
      specialize (H token' r' Hr). lia.
  - destruct (String.eqb (Py.upper action) "SELL"); [| exact H].
    destruct (positions t !! token) as [r|] eqn:Hr; [| exact H].
    intros token' r' Hr'. cbn [fst close_position positions objects] in *.
    destruct (decide (token = token')) as [->|Hne].
    + rewrite lookup_delete_eq in Hr'. discriminate.
    + rewrite lookup_delete_ne in Hr' by exact Hne. exact (H token' r' Hr').
Qed.

Lemma store_ok_first_target t token r price :
  store_ok t -> store_ok (fst (first_target t token r price)).
Proof.
  intros H. unfold first_target. destruct (Qle_bool _ _); [| exact H].
  pose proof (store_ok_execute_trade t token "SELL"
                (amount (deref t r) * 0.40) price H) as H1.
  destruct (execute_trade _ _ _ _ _) as [t1 res]. apply store_ok_write, H1.
Qed.

Lemma store_ok_second_target t token r price :
  store_ok t -> store_ok (fst (second_target t token r price)).
Proof.
  intros H. unfold second_target. destruct (Qle_bool _ _); [| exact H].
  pose proof (store_ok_execute_trade t token "SELL"
                (amount (deref t r) * 0.40) price H) as H1.
  destruct (execute_trade _ _ _ _ _) as [t1 res].
  apply store_ok_write, store_ok_write, H1.
Qed.

Lemma store_ok_moonbag_target t token r price :
  store_ok t -> store_ok (fst (moonbag_target t token r price)).
Proof.
  intros H. unfold moonbag_target. destruct (Qle_bool _ _); [| exact H].
  pose proof (store_ok_execute_trade t token "SELL"
                (amount (deref t r)) price H) as H1.
  destruct (execute_trade _ _ _ _ _) as [t1 res]. exact H1.
Qed.

Lemma store_ok_update_position t token price :
  store_ok t -> store_ok (fst (update_position t token price)).
Proof.
  intros H. unfold update_position.
  destruct (positions t !! token) as [r|]; [| exact H].
  pose proof (store_ok_write t r (set_current_price price) H) as H0.
  set (t0 := write t r (set_current_price price)) in *.
  destruct (Qle_bool price (stop_loss (deref t0 r))).
  - pose proof (store_ok_execute_trade t0 token "SELL"
                  (amount (deref t0 r)) price H0) as H1.
    destruct (execute_trade _ _ _ _ _) as [t1 res]. exact H1.
  - destruct (negb (moonbag_reserved (deref t0 r))); [| exact H0].
    pose proof (store_ok_first_target t0 token r price H0) as H1.
    destruct (first_target t0 token r price) as [t1 log1].
    pose proof (store_ok_second_target t1 token r price H1) as H2.
    destruct (second_target t1 token r price) as [t2 log2].
    pose proof (store_ok_moonbag_target t2 token r price H2) as H3.
    destruct (moonbag_target t2 token r price) as [t3 log3]. exact H3.
Qed.

(** The invariant of the specification does hold on the paths that
    sell the amount they ask for: before any update, and after a
    stop-loss exit. *)
Example invariant_holds_on_stop_loss :
  size_conserved 10 bought_T "T" [] /\
  let out := update_positions bought_T [("T", 0.90)] in
  map site (snd out) = [StopLoss] /\
  size_conserved 10 (fst out) "T" (snd out) /\
  credit_matches bought_T (fst out) 0.90 (snd out).
Proof. cbv zeta. repeat split; reflexivity. Qed.

(** Scenario B of the specification, prices 1.00, 1.31, 0.90: the
    update at 1.31 closes the whole position, so the update at 0.90
    finds nothing to stop out. *)
Example scenario_B :
  let out := update_positions bought_T [("T", 1.31)] in
  update_positions (fst out) [("T", 0.90)] = (fst out, []) /\
  current_balance (fst out) == 503.1.
Proof. cbv zeta. split; reflexivity. Qed.

End Trader.

(** ** More on the simulated trader *)

Section TraderCalls.
Import SimulatedTrader.
Local Open Scope Q_scope.

(** A BUY within the balance and the size limit. *)
Lemma execute_buy t token action a price :
  Py.upper action = "BUY" ->
  a * price <= current_balance t ->
  a * price <= max_position_size t ->
  execute_trade t token action a price =
    (open_position t token a price,
     Success (current_balance t - a * price) action a price).
Proof.
  intros Hu Hb Hm. unfold execute_trade. rewrite Hu.
  change (String.eqb "BUY" "BUY") with true. cbv iota.
  destruct (Qlt_le_dec (current_balance t) (a * price)) as [H|_];
    [exfalso; exact (Qlt_not_le _ _ H Hb) |].
  destruct (Qlt_le_dec (max_position_size t) (a * price)) as [H|_];
    [exfalso; exact (Qlt_not_le _ _ H Hm) |].
  reflexivity.
Qed.



(** A BUY that fits the balance and the size limit succeeds: the cost
    is debited and the balance stays non-negative, the token now refers
    to a fresh position dict holding the amount, the entry price, the
    stop-loss at [price * (1 - stop_loss_pct)] and the three target
    prices, and the other tokens keep their positions. *)
Theorem successful_buy_opens_position (t : trader) (token action : string)
    (a price : Q) :
  Py.upper action = "BUY" ->
  a * price <= current_balance t ->
  a * price <= max_position_size t ->
  let out := execute_trade t token action a price in
  let p := deref (fst out) (length (objects t)) in
  snd out = Success (current_balance t - a * price) action a price /\
  current_balance (fst out) = current_balance t - a * price /\
  0 <= current_balance (fst out) /\
  positions (fst out) !! token = Some (length (objects t)) /\
  (forall other, other <> token ->
     positions (fst out) !! other = positions t !! other) /\
  amount p = a /\ entry_price p = price /\ position_size p = a * price /\
  stop_loss p = price * (1 - stop_loss_pct t) /\
  take_profits p =
    {| first := price * first (take_profit_levels t);
       second := price * second (take_profit_levels t);
       moonbag := price * moonbag (take_profit_levels t) |} /\
  moonbag_reserved p = false.
Proof.
  intros Hu Hb Hm. cbv zeta. rewrite (execute_buy _ _ _ _ _ Hu Hb Hm).
  cbn [fst snd open_position current_balance positions].
  assert (Hd : deref (open_position t token a price) (length (objects t)) =
               {| amount := a; entry_price := price; current_price := price;
                  position_size := a * price;
                  stop_loss := price * (1 - stop_loss_pct t);
                  take_profits :=
                    {| first := price * first (take_profit_levels t);
                       second := price * second (take_profit_levels t);
                       moonbag := price * moonbag (take_profit_levels t) |};
                  moonbag_reserved := false |}).
  { unfold deref, open_position; cbn [objects].
    apply list_lookup_total_middle. reflexivity. }
  rewrite Hd. cbn [amount entry_price position_size stop_loss take_profits
                   moonbag_reserved].
  split; [reflexivity |]. split; [reflexivity |].
  split; [lra |]. split; [apply lookup_insert_eq |].
  split; [intros other Hne; apply lookup_insert_ne; congruence |].
  repeat split.
Qed.

Lemma successful_buy_opens_position_witness :
  current_balance (fst (execute_trade (init 500) "T" "buy" 10 1.00))
  = current_balance (init 500) - 10 * 1.00.
Proof.
  apply (successful_buy_opens_position (init 500) "T" "buy" 10 1.00).
  - reflexivity.
  - vm_compute. discriminate.
  - vm_compute. discriminate.
Defined.

(** Buying a token that has no open position and then selling it
    restores the table of open positions; the balance moves by the
    amount bought times the price difference, and the trade recorded
    last carries that profit.  The amount asked for in the SELL plays no
    part. *)
Theorem buy_then_sell_round_trip (t : trader) (token : string)
    (a price asked exit : Q) :
  positions t !! token = None ->
  a * price <= current_balance t ->
  a * price <= max_position_size t ->
  let t1 := fst (execute_trade t token "BUY" a price) in
  let out := execute_trade t1 token "SELL" asked exit in
  succeeded (snd out) = true /\
  positions (fst out) = positions t /\
  current_balance (fst out) == current_balance t + a * (exit - price) /\
  (exists older, trade_history (fst out) =
     (older ++ [{| trade_token := token; trade_action := "SELL";
                   trade_amount := a; trade_entry_price := price;
                   exit_price := exit;
                   profit := (exit - price) * a |}])%list).
Proof.
  intros Hn Hb Hm. cbv zeta.
  rewrite (execute_buy t token "BUY" a price eq_refl Hb Hm). cbn [fst].
  assert (Hr : positions (open_position t token a price) !! token
               = Some (length (objects t))) by apply lookup_insert_eq.
  rewrite (execute_sell _ token "SELL" asked exit _ eq_refl Hr).
  assert (Hd : deref (open_position t token a price) (length (objects t)) =
               {| amount := a; entry_price := price; current_price := price;
                  position_size := a * price;
                  stop_loss := price * (1 - stop_loss_pct t);
                  take_profits :=
                    {| first := price * first (take_profit_levels t);
                       second := price * second (take_profit_levels t);
                       moonbag := price * moonbag (take_profit_levels t) |};
                  moonbag_reserved := false |}).
  { unfold deref, open_position; cbn [objects].
    apply list_lookup_total_middle. reflexivity. }
  rewrite Hd.
  cbn [fst snd succeeded close_position open_position positions
       current_balance trade_history amount entry_price].
  split; [reflexivity |]. split; [| split].
  - rewrite delete_insert_eq. apply delete_id, Hn.
  - ring.
  - eexists. reflexivity.
Qed.

Lemma buy_then_sell_round_trip_witness :
  positions (fst (execute_trade (fst (execute_trade (init 500) "T" "BUY" 10 1.00))
                                "T" "SELL" 3 1.00))
  = positions (init 500).
Proof.
  apply (buy_then_sell_round_trip (init 500) "T" 10 1.00 3 1.00).
  - reflexivity.
  - vm_compute. discriminate.
  - vm_compute. discriminate.
Defined.

End TraderCalls.

(** ** What every call preserves *)

Section Preservation.
Import SimulatedTrader TraderSession.
Local Open Scope Q_scope.

Variable P : trader -> Prop.
Hypothesis P_write : forall t r f, mutation f -> P t -> P (write t r f).
Hypothesis P_trade :
  forall t token action a price,
    P t -> P (fst (execute_trade t token action a price)).

Lemma preserved_first_target t token r price :
  P t -> P (fst (first_target t token r price)).
Proof.
  intros H. unfold first_target. destruct (Qle_bool _ _); [| exact H].
  pose proof (P_trade t token "SELL" (amount (deref t r) * 0.40) price H) as H1.
  destruct (execute_trade _ _ _ _ _) as [t1 res].
  apply P_write; [constructor | exact H1].
Qed.

Lemma preserved_second_target t token r price :
  P t -> P (fst (second_target t token r price)).
Proof.
  intros H. unfold second_target. destruct (Qle_bool _ _); [| exact H].
  pose proof (P_trade t token "SELL" (amount (deref t r) * 0.40) price H) as H1.
  destruct (execute_trade _ _ _ _ _) as [t1 res].
  apply P_write; [constructor |]. apply P_write; [constructor | exact H1].
Qed.

Lemma preserved_moonbag_target t token r price :
  P t -> P (fst (moonbag_target t token r price)).
Proof.
  intros H. unfold moonbag_target. destruct (Qle_bool _ _); [| exact H].
  pose proof (P_trade t token "SELL" (amount (deref t r)) price H) as H1.
  destruct (execute_trade _ _ _ _ _) as [t1 res]. exact H1.
Qed.

Lemma preserved_update_position t token price :
  P t -> P (fst (update_position t token price)).
Proof.
  intros H. unfold update_position.
  destruct (positions t !! token) as [r|]; [| exact H].
  pose proof (P_write t r (set_current_price price) (mutate_price price) H)
    as H0.
  set (t0 := write t r (set_current_price price)) in *.
  destruct (Qle_bool price (stop_loss (deref t0 r))).
  - pose proof (P_trade t0 token "SELL" (amount (deref t0 r)) price H0) as H1.
    destruct (execute_trade _ _ _ _ _) as [t1 res]. exact H1.
  - destruct (negb (moonbag_reserved (deref t0 r))); [| exact H0].
    pose proof (preserved_first_target t0 token r price H0) as H1.
    destruct (first_target t0 token r price) as [t1 log1].
    pose proof (preserved_second_target t1 token r price H1) as H2.
    destruct (second_target t1 token r price) as [t2 log2].
    pose proof (preserved_moonbag_target t2 token r price H2) as H3.
    destruct (moonbag_target t2 token r price) as [t3 log3]. exact H3.
Qed.

Lemma preserved_update_positions market_data : forall t,
  P t -> P (fst (update_positions t market_data)).
Proof.
  induction market_data as [|[token price] rest IH]; intros t H; simpl.
  - exact H.
  - pose proof (preserved_update_position t token price H) as H1.
    destruct (update_position t token price) as [t1 log1].
    pose proof (IH t1 H1) as H2.
    destruct (update_positions t1 rest) as [t2 log2]. exact H2.
Qed.

Lemma preserved_run cs : forall t, P t -> P (run t cs).
Proof.
  induction cs as [|c cs IH]; intros t H; simpl; [exact H |].
  apply IH. destruct c as [token action a price | market_data]; simpl.
  - apply P_trade, H.
  - apply preserved_update_positions, H.
Qed.

End Preservation.

Section SessionInvariants.
Import SimulatedTrader TraderSession.
Local Open Scope Q_scope.

Lemma counters_ok_trade t token action a price :
  counters_ok t -> counters_ok (fst (execute_trade t token action a price)).
Proof.
  intros [H1 H2]. unfold execute_trade.
  destruct (String.eqb (Py.upper action) "BUY").
  - destruct (Qlt_le_dec _ _); [split; assumption |].
    destruct (Qlt_le_dec _ _); split; assumption.
  - destruct (String.eqb (Py.upper action) "SELL"); [| split; assumption].
    destruct (positions t !! token) as [r|]; [| split; assumption].
    unfold counters_ok.
    cbn [fst close_position wins losses total_trades trade_history].
    rewrite length_app; simpl.
    destruct (Qlt_le_dec (entry_price (deref t r)) price); split; lia.
Qed.

Lemma settings_trade t token action a price :
  settings (fst (execute_trade t token action a price)) = settings t.
Proof.
  unfold execute_trade.
  destruct (String.eqb (Py.upper action) "BUY").
  - destruct (Qlt_le_dec _ _); [reflexivity |].
    destruct (Qlt_le_dec _ _); reflexivity.
  - destruct (String.eqb (Py.upper action) "SELL"); [| reflexivity].
    destruct (positions t !! token); reflexivity.
Qed.

Lemma run_counters_ok balance cs : counters_ok (run (init balance) cs).
Proof.
  apply preserved_run.
  - intros t r f _ H; exact H.
  - intros t token action a price H; apply counters_ok_trade, H.
  - split; reflexivity.
Qed.

Lemma run_store_ok balance cs : store_ok (run (init balance) cs).
Proof.
  apply preserved_run.
  - intros t r f _ H; apply store_ok_write, H.
  - intros t token action a price H; apply store_ok_execute_trade, H.
  - apply store_ok_init.
Qed.

Lemma run_settings balance cs :
  settings (run (init balance) cs) = settings (init balance).
Proof.
  apply (preserved_run (fun t => settings t = settings (init balance))).
  - intros t r f _ H; exact H.
  - intros t token action a price H. rewrite settings_trade. exact H.
  - reflexivity.
Qed.

(** Whatever calls are made on a new trader, in whatever order: the
    win and loss counters add up to the number of trades, which is the
    length of the trade history; every reference of the table of open
    positions points to a position dict; and the initial balance and the
    risk settings are those set at creation. *)
Theorem session_invariants (balance : Q) (cs : list command) :
  let t := run (init balance) cs in
  counters_ok t /\ store_ok t /\ settings t = settings (init balance).
Proof.
  cbv zeta.
  split; [apply run_counters_ok | split; [apply run_store_ok | apply run_settings]].
Qed.

End SessionInvariants.

(** ** Price updates *)

Section Updates.
Import SimulatedTrader TraderSession.
Local Open Scope Q_scope.

(** Market data for tokens without an open position is ignored: no
    call is made and the trader is left as it was. *)
Theorem update_ignores_unknown_tokens (t : trader)
    (market_data : list (string * Q)) :
  (forall token price, In (token, price) market_data ->
     positions t !! token = None) ->
  update_positions t market_data = (t, []).
Proof.
  induction market_data as [|[token price] rest IH]; intros H; simpl.
  - reflexivity.
  - unfold update_position. rewrite (H token price (or_introl eq_refl)).
    rewrite IH; [reflexivity |].
    intros token' price' Hin. apply (H token' price'). right; exact Hin.
Qed.

Lemma update_ignores_unknown_tokens_witness :
  update_positions bought_T [("A", 2); ("B", 0)] = (bought_T, []).
Proof.
  apply update_ignores_unknown_tokens.
  intros token price [[= <- <-]|[[= <- <-]|[]]]; reflexivity.
Defined.

(** A price above the stop-loss and below the three targets, or any
    price above the stop-loss once [moonbag_reserved] is set, triggers
    no call: the update only writes the price into the position dict. *)
Theorem update_holds_between_levels (t : trader) (token : string) (r : nat)
    (price : Q) :
  positions t !! token = Some r ->
  stop_loss (deref t r) < price ->
  moonbag_reserved (deref t r) = true \/
  (price < first (take_profits (deref t r)) /\
   price < second (take_profits (deref t r)) /\
   price < moonbag (take_profits (deref t r))) ->
  update_position t token price = (write t r (set_current_price price), []).
Proof.
  intros Hr Hs Hz. unfold update_position. rewrite Hr.
  destruct (deref_set_current_price t r price) as (_ & E1 & E2 & E3).
  rewrite E1, E3.
  assert (Hn : forall x y, x < y -> Qle_bool y x = false).
  { intros x y Hxy. destruct (Qle_bool y x) eqn:E; [| reflexivity].
    apply Qle_bool_iff in E. exfalso. exact (Qlt_not_le _ _ Hxy E). }
  rewrite (Hn _ _ Hs).
  destruct (moonbag_reserved (deref t r)) eqn:Em; [reflexivity |].
  destruct Hz as [Hz|(H1 & H2 & H3)]; [discriminate |]. cbn [negb].
  unfold first_target. rewrite E2, (Hn _ _ H1).
  unfold second_target. rewrite E2, (Hn _ _ H2).
  unfold moonbag_target. rewrite E2, (Hn _ _ H3). reflexivity.
Qed.

Lemma update_holds_between_levels_witness :
  update_position bought_T "T" 1.10
  = (write bought_T 0 (set_current_price 1.10), []).
Proof.
  apply update_holds_between_levels.
  - reflexivity.
  - reflexivity.
  - right. repeat split.
Defined.

Lemma successes_app l1 l2 :
  successes (l1 ++ l2) = (successes l1 + successes l2)%nat.
Proof. unfold successes. rewrite filter_app, length_app. reflexivity. Qed.

Lemma first_target_absent t token r price :
  positions t !! token = None -> untouched token t (first_target t token r price).
Proof.
  intros Hn. unfold untouched, first_target.
  destruct (Qle_bool _ _); [| repeat split].
  rewrite (execute_sell_absent t token "SELL" _ price eq_refl Hn).
  repeat split.
Qed.

Lemma second_target_absent t token r price :
  positions t !! token = None -> untouched token t (second_target t token r price).
Proof.
  intros Hn. unfold untouched, second_target.
  destruct (Qle_bool _ _); [| repeat split].
  rewrite (execute_sell_absent t token "SELL" _ price eq_refl Hn).
  repeat split.
Qed.

Lemma moonbag_target_absent t token r price :
  positions t !! token = None -> untouched token t (moonbag_target t token r price).
Proof.
  intros Hn. unfold untouched, moonbag_target.
  destruct (Qle_bool _ _); [| repeat split].
  rewrite (execute_sell_absent t token "SELL" _ price eq_refl Hn).
  repeat split.
Qed.

Lemma first_target_present t token r price :
  positions t !! token = Some r ->
  first_target t token r price = (t, []) \/
  closed_out token t r price (first_target t token r price).
Proof.
  intros Hr. unfold closed_out, first_target.
  destruct (Qle_bool _ _); [right | left; reflexivity].
  rewrite (execute_sell t token "SELL" _ price r eq_refl Hr).
  cbn [fst snd write close_position positions current_balance].
  split; [reflexivity |]. split; [apply lookup_delete_eq | reflexivity].
Qed.

Lemma second_target_present t token r price :
  positions t !! token = Some r ->
  second_target t token r price = (t, []) \/
  closed_out token t r price (second_target t token r price).
Proof.
  intros Hr. unfold closed_out, second_target.
  destruct (Qle_bool _ _); [right | left; reflexivity].
  rewrite (execute_sell t token "SELL" _ price r eq_refl Hr).
  cbn [fst snd write close_position positions current_balance].
  split; [reflexivity |]. split; [apply lookup_delete_eq | reflexivity].
Qed.

Lemma moonbag_target_present t token r price :
  positions t !! token = Some r ->
  moonbag_target t token r price = (t, []) \/
  closed_out token t r price (moonbag_target t token r price).
Proof.
  intros Hr. unfold closed_out, moonbag_target.
  destruct (Qle_bool _ _); [right | left; reflexivity].
  rewrite (execute_sell t token "SELL" _ price r eq_refl Hr).
  cbn [fst snd write close_position positions current_balance].
  split; [reflexivity |]. split; [apply lookup_delete_eq | reflexivity].
Qed.

(** A price update for a token with an open position ends in one of
    two ways.  Either no call succeeded, and the token is still in the
    table with the balance unchanged; or exactly one call succeeded, the
    token has left the table and the balance has been credited with the
    whole amount of the position at the new price.  No update sells a
    position twice, and none leaves a partly sold position open. *)
Theorem update_closes_fully_or_not_at_all (t : trader) (token : string)
    (r : nat) (price : Q) :
  positions t !! token = Some r ->
  untouched token t (update_position t token price) \/
  closed_out token t r price (update_position t token price).
Proof.
  intros Hr. unfold update_position. rewrite Hr.
  destruct (deref_set_current_price t r price) as (Ha & _).
  set (t0 := write t r (set_current_price price)) in *.
  assert (Hr0 : positions t0 !! token = Some r) by exact Hr.
  destruct (Qle_bool price (stop_loss (deref t0 r))).
  { right. rewrite (execute_sell t0 token "SELL" _ price r eq_refl Hr0).
    unfold closed_out.
    cbn [fst snd close_position positions current_balance].
    rewrite Ha. split; [reflexivity |].
    split; [apply lookup_delete_eq | reflexivity]. }
  destruct (negb (moonbag_reserved (deref t0 r)));
    [| left; repeat split].
  destruct (first_target_present t0 token r price Hr0) as [E1|(S1 & N1 & B1)].
  - rewrite E1.
    destruct (second_target_present t0 token r price Hr0) as [E2|(S2 & N2 & B2)].
    + rewrite E2.
      destruct (moonbag_target_present t0 token r price Hr0) as [E3|(S3 & N3 & B3)].
      * rewrite E3. left. repeat split.
      * right. destruct (moonbag_target t0 token r price) as [t3 log3].
        unfold closed_out. cbn [fst snd] in *.
        rewrite !successes_app, S3, N3, B3, Ha. repeat split.
    + destruct (second_target t0 token r price) as [t2 log2]. cbn [fst snd] in *.
      destruct (moonbag_target_absent t2 token r price N2) as (S3 & N3 & B3).
      destruct (moonbag_target t2 token r price) as [t3 log3]. cbn [fst snd] in *.
      right. unfold closed_out. cbn [fst snd].
      rewrite !successes_app, S2, S3, N3, N2, B3, B2, Ha. repeat split.
  - destruct (first_target t0 token r price) as [t1 log1]. cbn [fst snd] in *.
    destruct (second_target_absent t1 token r price N1) as (S2 & N2 & B2).
    destruct (second_target t1 token r price) as [t2 log2]. cbn [fst snd] in *.
    rewrite N1 in N2.
    destruct (moonbag_target_absent t2 token r price N2) as (S3 & N3 & B3).
    destruct (moonbag_target t2 token r price) as [t3 log3]. cbn [fst snd] in *.
    right. unfold closed_out. cbn [fst snd].
    rewrite !successes_app, S1, S2, S3, N3, N2, B3, B2, B1, Ha. repeat split.
Qed.

Lemma update_closes_fully_or_not_at_all_witness :
  untouched "T" bought_T (update_position bought_T "T" 9) \/
  closed_out "T" bought_T 0 9 (update_position bought_T "T" 9).
Proof. apply update_closes_fully_or_not_at_all. reflexivity. Defined.

End Updates.

(** ** Performance metrics *)

Section Metrics.
Import SimulatedTrader TraderSession.
Local Open Scope Q_scope.

Lemma ratio_percent_bounds (w n : nat) :
  (w <= n)%nat -> (0 < n)%nat ->
  0 <= inject_Z (Z.of_nat w) / inject_Z (Z.of_nat n) * 100 <= 100.
Proof.
  intros Hw Hn.
  assert (HN : 0 < inject_Z (Z.of_nat n)).
  { change 0 with (inject_Z 0). rewrite <- Zlt_Qlt. lia. }
  assert (HW : 0 <= inject_Z (Z.of_nat w)).
  { change 0 with (inject_Z 0). rewrite <- Zle_Qle. lia. }
  assert (HWN : inject_Z (Z.of_nat w) <= inject_Z (Z.of_nat n)).
  { rewrite <- Zle_Qle. lia. }
  assert (H0 : 0 <= inject_Z (Z.of_nat w) / inject_Z (Z.of_nat n)).
  { apply Qle_shift_div_l; [exact HN | lra]. }
  assert (H1 : inject_Z (Z.of_nat w) / inject_Z (Z.of_nat n) <= 1).
  { apply Qle_shift_div_r; [exact HN | lra]. }
  split; lra.
Qed.

Lemma last_items_length {A : Type} (k : nat) (l : list A) :
  (length (last_items k l) <= k)%nat.
Proof. unfold last_items. rewrite length_drop. lia. Qed.

Lemma last_items_short {A : Type} (k : nat) (l : list A) :
  (length l <= k)%nat -> last_items k l = l.
Proof.
  intros H. unfold last_items.
  replace (length l - k)%nat with 0%nat by lia. reflexivity.
Qed.

(** After any session of a trader created with a non-zero balance,
    [get_performance_metrics] returns: the win rate is a percentage,
    the number of trades is the length of the full history, and the
    history reported is its last 100 entries at most (all of them when
    there are no more than 100).  For a trader created with balance 0
    the ROI division raises and no metrics are returned. *)
Theorem metrics_after_session (balance : Q) (cs : list command) :
  (balance == 0 ->
   get_performance_metrics (run (init balance) cs) = None) /\
  (~ balance == 0 ->
   exists m,
     get_performance_metrics (run (init balance) cs) = Some m /\
     0 <= win_rate m <= 100 /\
     m_total_trades m = length (trade_history (run (init balance) cs)) /\
     (length (m_trade_history m) <= 100)%nat /\
     ((m_total_trades m <= 100)%nat ->
      m_trade_history m = trade_history (run (init balance) cs))).
Proof.
  pose proof (run_counters_ok balance cs) as [Hc Hl].
  pose proof (run_settings balance cs) as Hs.
  set (t := run (init balance) cs) in *.
  assert (Hi : initial_balance t = balance) by (injection Hs; auto).
  unfold get_performance_metrics. rewrite Hi. split.
  - intros Hz. apply Qeq_bool_iff in Hz. rewrite Hz. reflexivity.
  - intros Hz. destruct (Qeq_bool balance 0) eqn:E;
      [apply Qeq_bool_eq in E; contradiction |].
    eexists. split; [reflexivity |].
    cbn [win_rate m_total_trades m_trade_history].
    split; [| split; [exact Hl | split]].
    + destruct (Nat.ltb 0 (total_trades t)) eqn:Ht.
      * apply Nat.ltb_lt in Ht. apply ratio_percent_bounds; lia.
      * split; lra.
    + apply last_items_length.
    + intros H. apply last_items_short. lia.
Qed.

Lemma metrics_after_session_witness :
  exists m,
    get_performance_metrics
      (run (init 500) [Trade "T" "BUY" 10 1.00; Update [("T", 1.31)]]) = Some m /\
    0 <= win_rate m <= 100.
Proof.
  destruct (proj2 (metrics_after_session 500
                     [Trade "T" "BUY" 10 1.00; Update [("T", 1.31)]]))
    as (m & Hm & Hw & _).
  - vm_compute. discriminate.
  - exists m. split; assumption.
Defined.

End Metrics.

(** ** The components of the risk score *)

Section RiskComponents.
Import RiskCalculator.
Local Open Scope Q_scope.

Lemma get_dex_liquidity_cases dex :
  In (get_dex_liquidity dex)
     [1000000; 800000; 1200000; 300000; 500000; 100000].
Proof.
  unfold get_dex_liquidity.
  repeat (destruct (String.eqb dex _); [simpl; tauto |]). simpl; tauto.
Qed.

Lemma dex_risk_score_cases dex :
  In (dex_risk_score dex) [15; 20; 25; 35; 30; 50].
Proof.
  unfold dex_risk_score.
  repeat (destruct (String.eqb dex _); [simpl; tauto |]). simpl; tauto.
Qed.

Lemma dex_liquidity_at_least dex : 100000 <= get_dex_liquidity dex.
Proof.
  pose proof (get_dex_liquidity_cases dex) as H. simpl in H.
  destruct H as [<-|[<-|[<-|[<-|[<-|[<-|[]]]]]]]; vm_compute; discriminate.
Qed.

Lemma capped_liquidity_term x :
  100000 <= x -> 100 - Py.min2 100 (x / 10000 * 100) == 0.
Proof.
  intros H. unfold Py.min2.
  destruct (Qlt_le_dec (x / 10000 * 100) 100) as [Hlt|_]; [| reflexivity].
  exfalso. assert (E : x / 10000 * 100 == x * (1 # 100)) by field.
  rewrite E in Hlt. lra.
Qed.

(** With the liquidity table of [get_dex_liquidity], every venue,
    known or not, has at least 100000 of liquidity, which the formula
    caps at zero risk: the liquidity component is 0 for every pair of
    venues. *)
Theorem liquidity_risk_is_zero (buy sell : string) :
  calculate_liquidity_risk buy sell == 0.
Proof.
  unfold calculate_liquidity_risk, Py.max2.
  pose proof (capped_liquidity_term _ (dex_liquidity_at_least buy)) as Hb.
  pose proof (capped_liquidity_term _ (dex_liquidity_at_least sell)) as Hs.
  destruct (Qlt_le_dec _ _); assumption.
Qed.

Lemma spread_risk_cases buy_price sell_price :
  In (calculate_spread_risk buy_price sell_price) [20; 50; 80].
Proof.
  unfold calculate_spread_risk.
  destruct (Qeq_bool buy_price 0); [simpl; tauto |].
  destruct (Qlt_le_dec 5 _); [simpl; tauto |].
  destruct (Qlt_le_dec 2 _); simpl; tauto.
Qed.

Lemma volume_risk_cases volume24h :
  In (calculate_volume_risk volume24h) [20; 50; 80].
Proof.
  unfold calculate_volume_risk.
  destruct (Qlt_le_dec 1000000 _); [simpl; tauto |].
  destruct (Qlt_le_dec 100000 _); simpl; tauto.
Qed.

Lemma smart_contract_risk_bounds buy sell :
  15 <= calculate_smart_contract_risk buy sell <= 50.
Proof.
  unfold calculate_smart_contract_risk, Py.max2.
  pose proof (dex_risk_score_cases buy) as Hb.
  pose proof (dex_risk_score_cases sell) as Hs.
  simpl in Hb, Hs.
  destruct (Qlt_le_dec _ _);
    [ destruct Hs as [<-|[<-|[<-|[<-|[<-|[<-|[]]]]]]]
    | destruct Hb as [<-|[<-|[<-|[<-|[<-|[<-|[]]]]]]] ];
    split; vm_compute; discriminate.
Qed.

(** With the default weights, whatever the opportunity and the fetched
    volume, a volatility score in [0,100] gives a total risk between
    8.25 and 61.5: the score can reach the "High Risk" band (60 and
    above) only barely. *)
Theorem default_risk_score_bounds (o : opportunity)
    (volatility_score volume24h : Q) :
  0 <= volatility_score <= 100 ->
  8.25 <= calculate_risk_score default_weights o volatility_score volume24h
       <= 61.5.
Proof.
  intros Hv. unfold calculate_risk_score, total_risk, gather.
  cbn [volatility_risk liquidity_risk spread_risk volume_risk
       smart_contract_risk volatility liquidity spread volume smart_contract
       default_weights].
  assert (Hl : calculate_liquidity_risk (buy_dex o) (sell_dex o) == 0).
  { unfold calculate_liquidity_risk, Py.max2.
    pose proof (capped_liquidity_term _ (dex_liquidity_at_least (buy_dex o))).
    pose proof (capped_liquidity_term _ (dex_liquidity_at_least (sell_dex o))).
    destruct (Qlt_le_dec _ _); assumption. }
  pose proof (smart_contract_risk_bounds (buy_dex o) (sell_dex o)) as Hc.
  assert (Hs : 20 <= calculate_spread_risk (buy_price o) (sell_price o) <= 80).
  { pose proof (spread_risk_cases (buy_price o) (sell_price o)) as H. simpl in H.
    destruct H as [<-|[<-|[<-|[]]]]; split; vm_compute; discriminate. }
  assert (Ho : 20 <= calculate_volume_risk volume24h <= 80).
  { pose proof (volume_risk_cases volume24h) as H. simpl in H.
    destruct H as [<-|[<-|[<-|[]]]]; split; vm_compute; discriminate. }
  rewrite Hl. lra.
Qed.

Lemma default_risk_score_bounds_witness :
  8.25 <= calculate_risk_score default_weights
            {| buy_dex := "Raydium"; sell_dex := "Orca";
               buy_price := 1.00; sell_price := 1.06 |} 50 200000
       <= 61.5.
Proof. apply default_risk_score_bounds. split; vm_compute; discriminate. Defined.

Lemma spread_percentage_above (b s k : Q) :
  0 < b -> (k < (s - b) / b * 100 <-> (1 + k / 100) * b < s).
Proof.
  intros Hb.
  assert (Hne : ~ b == 0) by (intros E; rewrite E in Hb; exact (Qlt_irrefl 0 Hb)).
  assert (E1 : (s - b) / b * 100 - k == (s - (1 + k / 100) * b) * (100 / b))
    by (field; exact Hne).
  assert (Hpos : 0 < 100 / b).
  { apply Qlt_shift_div_l; [exact Hb | lra]. }
  split; intros H.
  - assert (H1 : 0 < (s - (1 + k / 100) * b) * (100 / b)) by (rewrite <- E1; lra).
    assert (H2 : 0 < s - (1 + k / 100) * b).
    { destruct (Qlt_le_dec 0 (s - (1 + k / 100) * b)) as [Hp|Hn]; [exact Hp |].
      exfalso.
      assert (H3 : (s - (1 + k / 100) * b) * (100 / b) <= 0 * (100 / b)).
      { apply Qmult_le_compat_r; [exact Hn | apply Qlt_le_weak, Hpos]. }
      lra. }
    lra.
  - assert (H2 : 0 < s - (1 + k / 100) * b) by lra.
    assert (H3 : 0 < (s - (1 + k / 100) * b) * (100 / b)).
    { apply Qmult_lt_0_compat; assumption. }
    rewrite <- E1 in H3. lra.
Qed.



End RiskComponents.

(** ** The quote maps as dicts *)

Section DictKeys.
Context {V : Type}.
Implicit Types (d : list (string * V)) (k : string) (v : V).

Lemma dict_set_keys_in d k v k' :
  In k' (map fst (Py.dict_set k v d)) -> k' = k \/ In k' (map fst d).
Proof.
  induction d as [|[k0 v0] d IH]; simpl.
  - intros [H|[]]. left; congruence.
  - destruct (String.eqb_spec k k0) as [->|Hne]; simpl.
    + intros [H|H]; [left; congruence | right; right; exact H].
    + intros [H|H]; [right; left; exact H |].
      destruct (IH H) as [E|E]; [left | right; right]; exact E.
Qed.

Lemma dict_set_NoDup d k v :
  NoDup (map fst d) -> NoDup (map fst (Py.dict_set k v d)).
Proof.
  induction d as [|[k0 v0] d IH]; simpl; intros H.
  - apply NoDup_singleton.
  - inversion H as [|? ? Hnot Hrest]; subst.
    destruct (String.eqb_spec k k0) as [->|Hne]; simpl.
    + constructor; assumption.
    + constructor; [| exact (IH Hrest)].
      intros Hin. apply list_elem_of_In, dict_set_keys_in in Hin as [E|E];
        [congruence | apply Hnot, list_elem_of_In, E].
Qed.

Lemma dict_set_length d k v :
  (length (Py.dict_set k v d) <= S (length d))%nat.
Proof.
  induction d as [|[k0 v0] d IH]; simpl; [lia |].
  destruct (String.eqb k k0); simpl; lia.
Qed.

(** Reading back what was stored, and only that. *)
Lemma dict_get_set_same d k v : Py.dict_get k (Py.dict_set k v d) = Some v.
Proof.
  induction d as [|[k0 v0] d IH]; simpl.
  - rewrite String.eqb_refl. reflexivity.
  - destruct (String.eqb k k0) eqn:E; simpl.
    + rewrite String.eqb_refl. reflexivity.
    + rewrite E. exact IH.
Qed.

End DictKeys.

Section QuoteMaps.
Import DEXManager.
Local Open Scope Q_scope.

Lemma collect_positive_NoDup tasks : forall acc,
  NoDup (map fst acc) -> NoDup (map fst (collect_positive tasks acc)).
Proof.
  induction tasks as [|[d [x|]] tasks IH]; intros acc H; simpl.
  - exact H.
  - destruct (Qlt_le_dec 0 x); [apply IH, dict_set_NoDup, H | apply IH, H].
  - apply IH, H.
Qed.

Lemma pair_prices_NoDup m g base quote :
  NoDup (map fst (pair_prices m g base quote)).
Proof. unfold pair_prices. apply collect_positive_NoDup. constructor. Qed.

Lemma fold_prices_NoDup m g pairs : forall acc,
  NoDup (map fst acc) ->
  NoDup (map fst (fold_left (store_pair m g) pairs acc)).
Proof.
  induction pairs as [|bq pairs IH]; intros acc H; simpl; [exact H |].
  apply IH. unfold store_pair. apply dict_set_NoDup, H.
Qed.

Lemma fold_prices_length m g pairs : forall acc,
  (length (fold_left (store_pair m g) pairs acc) <= length acc + length pairs)%nat.
Proof.
  induction pairs as [|bq pairs IH]; intros acc; simpl; [lia |].
  specialize (IH (store_pair m g acc bq)).
  assert (H : (length (store_pair m g acc bq) <= S (length acc))%nat)
    by apply dict_set_length.
  lia.
Qed.

(** The map returned by [get_all_prices] has one entry per pair key
    and, inside each entry, one price per venue: no key is repeated at
    either level, and there are no more entries than configured
    pairs. *)
Theorem quote_maps_have_unique_keys (m : market) (g : manager) :
  NoDup (map fst (get_all_prices m g)) /\
  (forall key dp, In (key, dp) (get_all_prices m g) -> NoDup (map fst dp)) /\
  (length (get_all_prices m g) <= length (trading_pairs g))%nat.
Proof.
  split; [| split].
  - apply fold_prices_NoDup. constructor.
  - intros key dp H.
    apply (fold_prices_entries m g _ []) in H as [[]|(b & q & _ & _ & ->)].
    apply pair_prices_NoDup.
  - exact (fold_prices_length m g (trading_pairs g) []).
Qed.

(** [get_liquidity_info] lists a venue exactly when its
    [get_liquidity] call returned a positive number, with that number;
    a venue whose call raises or answers 0 is left out and the others
    are still listed. *)
Theorem liquidity_info_lists_positive_answers (m : market) (g : manager)
    (bq : string * string) (d : string) (l : Q) :
  In (d, l) (get_liquidity_info m g bq) <->
  In d (dexes g) /\ get_liquidity m d (fst bq) (snd bq) = Returned l /\ 0 < l.
Proof.
  unfold get_liquidity_info.
  rewrite (collect_positive_spec (fun n => get_liquidity m n (fst bq) (snd bq))).
  - split; [intros [[]|H]; exact H | intros H; right; exact H].
  - intros d' p' [].
Qed.

End QuoteMaps.

(** ** What the emitted opportunities look like *)

Section Opportunities.
Import DEXManager.
Local Open Scope Q_scope.

Lemma scan_pairs prices minp : forall acc opps,
  scan prices minp acc = Some opps ->
  exists ks, map pair opps = (map pair acc ++ ks)%list /\
             ks `sublist_of` map fst prices.
Proof.
  induction prices as [|[key dp] prices IH]; intros acc opps; simpl.
  - intros [= <-]. exists []. rewrite app_nil_r. split; [reflexivity | constructor].
  - destruct (detect key dp minp) eqn:Hd; [discriminate | |]; intros Hs.
    + destruct (IH _ _ Hs) as (ks & E & Hsub).
      exists ks. split; [exact E | apply sublist_cons, Hsub].
    + destruct (IH _ _ Hs) as (ks & E & Hsub).
      apply detect_emitted in Hd as (_ & _ & _ & _ & Hp & _).
      exists (key :: ks). split; [| apply sublist_skip, Hsub].
      rewrite E, map_app; simpl. rewrite Hp, <- app_assoc. reflexivity.
Qed.

(** The opportunities returned by [get_arbitrage_opportunities] carry
    pairwise different pair names, each the key of a configured pair:
    there is at most one opportunity per pair and never more
    opportunities than pairs. *)
Theorem at_most_one_opportunity_per_pair (m : market) (g : manager)
    (minp : Q) (opps : list opportunity) :
  get_arbitrage_opportunities m g minp = Some opps ->
  NoDup (map pair opps) /\
  (length opps <= length (trading_pairs g))%nat /\
  (forall o, In o opps ->
     exists base quote, In (base, quote) (trading_pairs g) /\
                        pair o = pair_key base quote).
Proof.
  intros H. unfold get_arbitrage_opportunities in H.
  destruct (scan_pairs _ _ _ _ H) as (ks & E & Hsub). simpl in E.
  split; [| split].
  - rewrite E. eapply sublist_NoDup; [| exact Hsub].
    apply fold_prices_NoDup. constructor.
  - apply sublist_length in Hsub. rewrite <- E in Hsub.
    rewrite !length_map in Hsub.
    pose proof (fold_prices_length m g (trading_pairs g) []) as Hl.
    unfold get_all_prices in Hsub. simpl in Hl. lia.
  - intros o Ho. destruct (scan_In _ _ _ _ _ H Ho) as [[]|(key & dp & Hin & He)].
    apply (fold_prices_entries m g _ []) in Hin as [[]|(b & q & Hbq & -> & _)].
    apply detect_emitted in He as (_ & _ & _ & _ & Hp & _).
    exists b, q. split; assumption.
Qed.

Lemma at_most_one_opportunity_per_pair_witness :
  NoDup (map pair
           [ {| pair := "SOL-USDC"; buy_dex := "Raydium"; sell_dex := "Orca";
                buy_price := 1.00; sell_price := 1.06;
                profit_percentage := (1.06 - 1.00) / 1.00 * 100 |} ]).
Proof.
  apply (at_most_one_opportunity_per_pair Fixtures.thin_market
           Fixtures.sol_only 1).
  reflexivity.
Defined.

(** An opportunity is emitted for a pair only if at least two
    different venues returned a positive price for it. *)
Theorem emitted_needs_two_venues (m : market) (g : manager) (minp : Q)
    (opps : list opportunity) (o : opportunity) :
  get_arbitrage_opportunities m g minp = Some opps -> In o opps ->
  exists base quote d1 d2 p1 p2,
    In (base, quote) (trading_pairs g) /\ pair o = pair_key base quote /\
    d1 <> d2 /\ In d1 (dexes g) /\ In d2 (dexes g) /\
    get_price m d1 base quote = Returned p1 /\ 0 < p1 /\
    get_price m d2 base quote = Returned p2 /\ 0 < p2.
Proof.
  intros H Ho. unfold get_arbitrage_opportunities in H.
  destruct (scan_In _ _ _ _ _ H Ho) as [[]|(key & dp & Hin & He)].
  apply (fold_prices_entries m g _ []) in Hin as [[]|(b & q & Hbq & -> & ->)].
  pose proof (pair_prices_NoDup m g b q) as Hnd.
  apply detect_emitted in He as ([d1 p1] & [d2 p2] & r & E & Hp & _).
  assert (H1 : In (d1, p1) (pair_prices m g b q)) by (rewrite E; left; reflexivity).
  assert (H2 : In (d2, p2) (pair_prices m g b q))
    by (rewrite E; right; left; reflexivity).
  apply pair_prices_spec in H1 as (D1 & G1 & P1).
  apply pair_prices_spec in H2 as (D2 & G2 & P2).
  exists b, q, d1, d2, p1, p2. repeat split; try assumption.
  rewrite E in Hnd. simpl in Hnd. inversion Hnd as [|? ? Hnot _]; subst.
  intros ->. apply Hnot. left.
Qed.

Lemma emitted_needs_two_venues_witness :
  exists base quote d1 d2 p1 p2,
    In (base, quote) (trading_pairs Fixtures.sol_only) /\
    "SOL-USDC" = pair_key base quote /\
    d1 <> d2 /\ In d1 (dexes Fixtures.sol_only) /\ In d2 (dexes Fixtures.sol_only) /\
    get_price Fixtures.thin_market d1 base quote = Returned p1 /\ 0 < p1 /\
    get_price Fixtures.thin_market d2 base quote = Returned p2 /\ 0 < p2.
Proof.
  apply (emitted_needs_two_venues Fixtures.thin_market Fixtures.sol_only 1
           [ {| pair := "SOL-USDC"; buy_dex := "Raydium"; sell_dex := "Orca";
                buy_price := 1.00; sell_price := 1.06;
                profit_percentage := (1.06 - 1.00) / 1.00 * 100 |} ]
           {| pair := "SOL-USDC"; buy_dex := "Raydium"; sell_dex := "Orca";
              buy_price := 1.00; sell_price := 1.06;
              profit_percentage := (1.06 - 1.00) / 1.00 * 100 |}).
  - reflexivity.
  - left; reflexivity.
Defined.

(** With a positive threshold every emitted opportunity has a sell
    price strictly above its buy price and two different venues. *)
Theorem positive_threshold_gives_real_spread (m : market) (g : manager)
    (minp : Q) (opps : list opportunity) (o : opportunity) :
  0 < minp ->
  get_arbitrage_opportunities m g minp = Some opps -> In o opps ->
  buy_price o < sell_price o /\ buy_dex o <> sell_dex o.
Proof.
  intros Hpos H Ho. unfold get_arbitrage_opportunities in H.
  destruct (scan_In _ _ _ _ _ H Ho) as [[]|(key & dp & Hin & He)].
  destruct (detect_first _ _ _ _ He) as [Hb Hs].
  apply first_min_In in Hb. apply first_max_In in Hs.
  pose proof (all_prices_positive m g key dp _ _ Hin Hb) as Hbpos.
  apply (fold_prices_entries m g _ []) in Hin as [[]|(b & q & _ & _ & ->)].
  apply detect_emitted in He as (_ & _ & _ & _ & _ & _ & _ & _ & Hpct & Hmin).
  assert (Hlt : buy_price o < sell_price o).
  { assert (H0 : 0 < (sell_price o - buy_price o) / buy_price o * 100).
    { rewrite <- Hpct. lra. }
    apply (spread_percentage_above _ _ 0 Hbpos) in H0.
    assert (E : (1 + 0 / 100) * buy_price o == buy_price o) by field.
    rewrite E in H0. exact H0. }
  split; [exact Hlt |].
  intros Heq. rewrite Heq in Hb.
  apply pair_prices_spec in Hb as (_ & G1 & _).
  apply pair_prices_spec in Hs as (_ & G2 & _).
  rewrite G1 in G2. injection G2 as G2. rewrite G2 in Hlt.
  exact (Qlt_irrefl _ Hlt).
Qed.

Lemma positive_threshold_gives_real_spread_witness :
  (1.00 < 1.06) /\ "Raydium" <> "Orca".
Proof.
  apply (positive_threshold_gives_real_spread Fixtures.thin_market
           Fixtures.sol_only 1
           [ {| pair := "SOL-USDC"; buy_dex := "Raydium"; sell_dex := "Orca";
                buy_price := 1.00; sell_price := 1.06;
                profit_percentage := (1.06 - 1.00) / 1.00 * 100 |} ]
           {| pair := "SOL-USDC"; buy_dex := "Raydium"; sell_dex := "Orca";
              buy_price := 1.00; sell_price := 1.06;
              profit_percentage := (1.06 - 1.00) / 1.00 * 100 |}).
  - reflexivity.
  - reflexivity.
  - left; reflexivity.
Defined.

End Opportunities.

(** ** The venue classes behind the aggregator *)

Section VenueClasses.
Import DEXManager Venues.
Local Open Scope Q_scope.

Lemma rest_get_price_positive (r : http) (p : Q) :
  0 < p -> (rest_get_price r = Returned p <-> r = Response 200 (Some p)).
Proof.
  intros Hp. split.
  - destruct r as [|status [q|]]; simpl; try discriminate.
    + destruct (Nat.eqb_spec status 200) as [->|_].
      * intros [= ->]. reflexivity.
      * intros [= <-]. exfalso. exact (Qlt_irrefl 0 Hp).
    + destruct (Nat.eqb status 200); [discriminate |].
      intros [= <-]. exfalso. exact (Qlt_irrefl 0 Hp).
  - intros ->. reflexivity.
Qed.

(** With the venue classes of the file behind the aggregator, a venue
    has an entry for a pair exactly when its request was answered with
    status 200 and a positive price; for Marinade the pair must also
    have mSOL on one side.  An unreachable venue, a status other than
    200, a body without a usable price and a non-positive price all
    leave the venue out. *)
Theorem venue_entry_needs_status_200 (net : string -> string -> string -> http)
    (liq : string -> string -> string -> fetched) (g : manager)
    (base quote d : string) (p : Q) :
  In (d, p) (pair_prices (live_market net liq) g base quote) <->
  In d (dexes g) /\ net d base quote = Response 200 (Some p) /\ 0 < p /\
  (d = "Marinade" -> base = "mSOL" \/ quote = "mSOL").
Proof.
  rewrite pair_prices_spec. cbn [live_market get_price].
  unfold venue_get_price, marinade_get_price.
  split.
  - intros (Hd & Hg & Hp). split; [exact Hd |].
    destruct (String.eqb_spec d "Marinade") as [->|Hne].
    + destruct (String.eqb_spec base "mSOL") as [->|Hb]; simpl in Hg.
      * apply (rest_get_price_positive _ _ Hp) in Hg. auto.
      * destruct (String.eqb_spec quote "mSOL") as [->|Hq]; simpl in Hg.
        -- apply (rest_get_price_positive _ _ Hp) in Hg. auto.
        -- injection Hg as <-. exfalso. exact (Qlt_irrefl 0 Hp).
    + apply (rest_get_price_positive _ _ Hp) in Hg.
      split; [exact Hg | split; [exact Hp | intros E; contradiction]].
  - intros (Hd & Hn & Hp & Hm). split; [exact Hd | split; [| exact Hp]].
    destruct (String.eqb_spec d "Marinade") as [E|Hne].
    + destruct (Hm E) as [->| ->].
      * simpl. apply rest_get_price_positive; assumption.
      * destruct (String.eqb base "mSOL"); simpl;
          apply rest_get_price_positive; assumption.
    + apply rest_get_price_positive; assumption.
Qed.

End VenueClasses.

(** ** The arbitrage bot *)

Section Bot.
Import DEXManager.
Local Open Scope Q_scope.

Lemma collect_In tasks : forall prices d p,
  In (d, p) (ArbitrageBot.collect tasks prices) ->
  In (d, p) prices \/ In (d, Returned p) tasks.
Proof.
  induction tasks as [|[d0 [x|]] tasks IH]; intros prices d p; simpl.
  - intros H; left; exact H.
  - intros H. apply IH in H as [H|H]; [| right; right; exact H].
    apply dict_set_elim in H as [[= -> ->]|H]; [right; left; reflexivity | left; exact H].
  - intros H. apply IH in H as [H|H]; [left; exact H | right; right; exact H].
Qed.

(** When [find_arbitrage_opportunity] reports an opportunity, it is for
    the first configured pair whose best spread clears the threshold
    (every earlier pair was passed over); its profit is the sell price
    minus the buy price and is at least [min_profit_usd]; and both
    venues are configured venues whose price call returned the price
    shown. *)
Theorem found_opportunity_is_first_profitable
    (get_token_price : string -> string -> fetched)
    (dex_names : list string) (pairs : list (string * string))
    (min_profit_usd : Q) (o : ArbitrageBot.opportunity) :
  ArbitrageBot.find_arbitrage_opportunity get_token_price dex_names pairs
    min_profit_usd = Some o ->
  let prices_of base :=
    ArbitrageBot.collect
      (map (fun dex => (dex, get_token_price base dex)) dex_names) [] in
  (exists before after,
     pairs = (before ++ (ArbitrageBot.base_token o, ArbitrageBot.quote_token o)
                     :: after)%list /\
     forall base quote, In (base, quote) before ->
       ArbitrageBot.best_spread base quote (prices_of base) min_profit_usd = None) /\
  min_profit_usd <= ArbitrageBot.potential_profit_usd o /\
  ArbitrageBot.potential_profit_usd o
    == ArbitrageBot.sell_price o - ArbitrageBot.buy_price o /\
  In (ArbitrageBot.buy_dex o) dex_names /\
  In (ArbitrageBot.sell_dex o) dex_names /\
  get_token_price (ArbitrageBot.base_token o) (ArbitrageBot.buy_dex o)
    = Returned (ArbitrageBot.buy_price o) /\
  get_token_price (ArbitrageBot.base_token o) (ArbitrageBot.sell_dex o)
    = Returned (ArbitrageBot.sell_price o).
Proof.
  cbv zeta. induction pairs as [|[b q] pairs IH]; simpl; [discriminate |].
  destruct (ArbitrageBot.best_spread b q _ min_profit_usd) as [o'|] eqn:Hbs.
  - intros [= ->].
    destruct (best_spread_first _ _ _ _ _ Hbs) as [Hmin Hmax].
    apply first_min_In in Hmin. apply first_max_In in Hmax.
    unfold ArbitrageBot.best_spread in Hbs.
    destruct (ArbitrageBot.collect _ _) as [|x [|y r]] eqn:Hc; try discriminate.
    match type of Hbs with context [Qle_bool min_profit_usd ?pr] =>
      destruct (Qle_bool min_profit_usd pr) eqn:Hp end; [| discriminate].
    injection Hbs as <-.
    cbn [ArbitrageBot.base_token ArbitrageBot.quote_token
         ArbitrageBot.potential_profit_usd ArbitrageBot.buy_price
         ArbitrageBot.sell_price ArbitrageBot.buy_dex ArbitrageBot.sell_dex] in *.
    rewrite <- Hc in Hmin, Hmax.
    apply collect_In in Hmin as [[]|Hmin]. apply collect_In in Hmax as [[]|Hmax].
    apply in_map_iff in Hmin as (d1 & [= <- E1] & D1).
    apply in_map_iff in Hmax as (d2 & [= <- E2] & D2).
    split; [exists [], pairs; split; [reflexivity | intros ? ? []] |].
    split; [apply Qle_bool_iff, Hp |].
    split; [ring |]. repeat split; assumption.
  - intros H. destruct (IH H) as ((before & after & E & Hbefore) & Hrest).
    split; [| exact Hrest].
    exists ((b, q) :: before), after. split; [simpl; rewrite E; reflexivity |].
    intros base quote [[= <- <-]|Hin]; [exact Hbs | exact (Hbefore _ _ Hin)].
Qed.

Lemma found_opportunity_is_first_profitable_witness :
  exists o,
    ArbitrageBot.find_arbitrage_opportunity
      (fun base dex => if String.eqb dex "sushiswap" then Returned 2150
                       else Returned 2000)
      ["uniswap_v2"; "sushiswap"; "pancakeswap"] [("WETH", "USDC")] 100 = Some o /\
    100 <= ArbitrageBot.potential_profit_usd o.
Proof.
  eexists. split; [vm_compute; reflexivity |].
  eapply (found_opportunity_is_first_profitable
            (fun base dex => if String.eqb dex "sushiswap" then Returned 2150
                             else Returned 2000)
            ["uniswap_v2"; "sushiswap"; "pancakeswap"] [("WETH", "USDC")] 100).
  vm_compute. reflexivity.
Defined.

End Bot.

Section Feed.
Import SimulatedFeed.
Local Open Scope Q_scope.

Lemma base_price_cases token :
  In (base_price token) [2000; 35000; 1; 1; 0].
Proof.
  unfold base_price.
  repeat (destruct (String.eqb token _); [simpl; tauto |]). simpl; tauto.
Qed.

(** Every simulated quote of a token lies within 35 of its base price. *)
Lemma simulated_price_band token v :
  - (0.001) <= v <= 0.001 ->
  base_price token - 35 <= get_token_price token v <= base_price token + 35.
Proof.
  intros Hv. unfold get_token_price.
  pose proof (base_price_cases token) as H. simpl in H.
  destruct H as [<-|[<-|[<-|[<-|[<-|[]]]]]]; split; lra.
Qed.

Lemma quote_round_band variation base dex_names : forall n prices,
  bounded variation ->
  (forall d p, In (d, p) prices ->
     base_price base - 35 <= p <= base_price base + 35) ->
  forall d p, In (d, p) (fst (quote_round variation base dex_names n prices)) ->
    base_price base - 35 <= p <= base_price base + 35.
Proof.
  induction dex_names as [|dex r IH]; intros n prices Hb Hacc d p; simpl.
  - apply Hacc.
  - apply IH; [exact Hb |].
    intros d' p' H. apply dict_set_elim in H as [[= -> ->]|H].
    + apply simulated_price_band, Hb.
    + exact (Hacc _ _ H).
Qed.

Lemma narrow_band_no_spread base quote prices (lo hi minp : Q) :
  (forall d p, In (d, p) prices -> lo <= p <= hi) ->
  hi - lo < minp ->
  ArbitrageBot.best_spread base quote prices minp = None.
Proof.
  intros Hband Hnarrow. unfold ArbitrageBot.best_spread.
  destruct prices as [|x [|y r]]; try reflexivity.
  pose proof (first_min_In _ _ (min_from_first_min (y :: r) x)) as Hmin.
  pose proof (first_max_In _ _ (max_from_first_max (y :: r) x)) as Hmax.
  destruct (Py.min_from x (y :: r)) as [d1 p1].
  destruct (Py.max_from x (y :: r)) as [d2 p2].
  apply Hband in Hmin. apply Hband in Hmax. cbn [fst snd].
  destruct (Qle_bool minp ((p2 - p1) * 1)) eqn:E; [| reflexivity].
  apply Qle_bool_iff in E. exfalso. lra.
Qed.

(** Over the simulated price feed no opportunity is ever found once
    the threshold is above 70 USD, whatever the venues, the pairs and
    the random draws: the quotes of a token differ by at most 0.2% of a
    base price of at most 35000.  The default threshold is 100. *)
Theorem simulated_feed_never_finds (variation : nat -> Q)
    (dex_names : list string) (pairs : list (string * string))
    (min_profit_usd : Q) (n : nat) :
  bounded variation -> 70 < min_profit_usd ->
  find_arbitrage_opportunity variation dex_names pairs min_profit_usd n = None.
Proof.
  intros Hb Hmin. revert n.
  induction pairs as [|[base quote] pairs IH]; intros n; simpl; [reflexivity |].
  pose proof (quote_round_band variation base dex_names n [] Hb
                (fun d p (H : In (d, p) []) => match H with end)) as Hband.
  destruct (quote_round variation base dex_names n []) as [prices n'].
  cbn [fst] in Hband.
  rewrite (narrow_band_no_spread base quote prices
             (base_price base - 35) (base_price base + 35) min_profit_usd Hband);
    [apply IH | lra].
Qed.

Lemma simulated_feed_never_finds_witness :
  find_arbitrage_opportunity (fun k => if Nat.even k then 0.001 else - (0.001))
    ["uniswap_v2"; "sushiswap"; "pancakeswap"]
    [("WETH", "USDC"); ("WETH", "DAI"); ("WBTC", "USDC")] 100 0 = None.
Proof.
  apply simulated_feed_never_finds.
  - intros k. destruct (Nat.even k); split; vm_compute; discriminate.
  - reflexivity.
Defined.

End Feed.

(** ** More on the exit analysis *)

Section ExitReport.
Import SolanaTrader.
Local Open Scope Q_scope.

(** The exit flag and the list of reasons always agree: an exit is
    asked for exactly when at least one reason is given, the error
    report included. *)
Theorem exit_flag_matches_reasons (cfg : exit_config) (price : Q)
    (data : position_data) (entry_price : Q) :
  let a := analyze_exit_opportunity cfg price data entry_price in
  should_exit a = true <-> reasons a <> [].
Proof.
  cbv zeta. unfold analyze_exit_opportunity.
  destruct (Qeq_bool entry_price 0); [split; [discriminate | reflexivity] |].
  destruct (Qeq_bool (trailing_high data) 0);
    [split; [discriminate | reflexivity] |].
  cbn [should_exit reasons].
  destruct (Qle_bool (take_profit cfg) _), (Qle_bool _ (- stop_loss cfg)),
    (Qle_bool (trailing_stop cfg) _), (Qle_bool (max_hold_time cfg) _);
    simpl; split; intros H; try reflexivity; try discriminate;
    exfalso; apply H; reflexivity.
Qed.



End ExitReport.

(** ** Entry analysis *)

Section Entry.
Import SolanaEntry.
Local Open Scope Q_scope.

(** An entry is recommended exactly when the momentum test passes
    together with at least three of the four other tests (volume,
    liquidity, position limit, correlation): momentum is necessary, and
    one other failure is tolerated but not two.  The score never
    exceeds 100 and one reason is listed per passed test. *)
Theorem entry_needs_momentum_and_three_more (ecfg : entry_config)
    (pcfg : position_config) (price_data : list Q)
    (volume24h liquidity portfolio_value : Q) (open_positions : nat)
    (correlation : bool) :
  let c := entry_checks ecfg pcfg price_data volume24h liquidity
             open_positions correlation in
  let a := analyze_entry_opportunity ecfg pcfg price_data volume24h liquidity
             portfolio_value open_positions correlation in
  should_enter a =
    (momentum_ok c &&
     ((volume_ok c && liquidity_ok c && (positions_ok c || correlation_ok c)) ||
      (positions_ok c && correlation_ok c && (volume_ok c || liquidity_ok c))))%bool /\
  (score a <= 100)%nat /\
  length (reasons a) =
    (Nat.b2n (momentum_ok c) + Nat.b2n (volume_ok c) + Nat.b2n (liquidity_ok c) +
     Nat.b2n (positions_ok c) + Nat.b2n (correlation_ok c))%nat.
Proof.
  cbv zeta. unfold analyze_entry_opportunity.
  cbn [should_enter score reasons].
  destruct (momentum_ok _), (volume_ok _), (liquidity_ok _), (positions_ok _),
    (correlation_ok _); repeat split; simpl; lia.
Qed.

Lemma clamp_between (lo hi x : Q) :
  lo <= hi ->
  lo <= Py.min2 hi (Py.max2 lo x) <= hi /\
  (lo <= x <= hi -> Py.min2 hi (Py.max2 lo x) == x).
Proof.
  intros H. unfold Py.min2, Py.max2.
  destruct (Qlt_le_dec lo x); destruct (Qlt_le_dec _ hi); split;
    try split; intros; lra.
Qed.

(** The position size proposed is 2% of the liquidity, clamped between
    the minimum and the maximum share of the portfolio (1% and 10% by
    default), whenever that minimum does not exceed that maximum. *)
Theorem entry_size_is_clamped (ecfg : entry_config) (pcfg : position_config)
    (price_data : list Q) (volume24h liquidity portfolio_value : Q)
    (open_positions : nat) (correlation : bool) :
  let lo := portfolio_value * min_position_size pcfg in
  let hi := portfolio_value * max_position_size pcfg in
  let size := position_size
                (analyze_entry_opportunity ecfg pcfg price_data volume24h
                   liquidity portfolio_value open_positions correlation) in
  lo <= hi ->
  lo <= size <= hi /\
  (lo <= liquidity * 0.02 <= hi -> size == liquidity * 0.02).
Proof.
  cbv zeta. intros H. unfold analyze_entry_opportunity. cbn [position_size].
  apply clamp_between, H.
Qed.

Lemma entry_size_is_clamped_witness :
  10000 * min_position_size default_position
  <= position_size
       (analyze_entry_opportunity default_entry default_position
          [1.00; 1.10] 50000 100000 10000 0 true)
  <= 10000 * max_position_size default_position.
Proof.
  apply (entry_size_is_clamped default_entry default_position
           [1.00; 1.10] 50000 100000 10000 0 true).
  vm_compute. discriminate.
Defined.





(** The Twitter score is a multiple of ten between 0 and 100, so the
    final cap at 100 never changes it; it is 0 when all three metrics
    are missing and reaches 100 exactly when there are at least 1000
    mentions, an engagement rate of at least 0.1 and at least 3
    influencer mentions. *)
Theorem twitter_score_range (recent_mentions engagement_rate
    influencer_mentions : option Q) :
  let s := _score_twitter_data recent_mentions engagement_rate
             influencer_mentions in
  In s [0; 20; 30; 40; 50; 60; 70; 80; 90; 100] /\
  (s = 100 <->
   1000 <= default 0 recent_mentions /\ 0.1 <= default 0 engagement_rate /\
   3 <= default 0 influencer_mentions) /\
  _score_twitter_data None None None = 0.
Proof.
  cbv zeta. unfold _score_twitter_data.
  set (m := default 0 recent_mentions).
  set (e := default 0 engagement_rate).
  set (i := default 0 influencer_mentions).
  split; [| split; [| reflexivity]].
  - destruct (Qle_bool 1000 m), (Qle_bool 500 m), (Qle_bool 100 m),
      (Qle_bool 0.1 e), (Qle_bool 3 i); vm_compute; tauto.
  - rewrite <- !Qle_bool_iff.
    destruct (Qle_bool 1000 m), (Qle_bool 500 m), (Qle_bool 100 m),
      (Qle_bool 0.1 e), (Qle_bool 3 i); vm_compute;
      split; try discriminate; try tauto;
      intros (? & ? & ?); discriminate.
Qed.

End Entry.

(** ** Exit levels *)

Section ExitLevels.
Import SimulatedTrader TraderSession.
Local Open Scope Q_scope.

Lemma mutation_keeps_levels f p :
  mutation f -> levels_at_entry p -> levels_at_entry (f p).
Proof. intros [v|d|] H; exact H. Qed.

Lemma levels_kept_by_trade balance t token action a price :
  settings t = settings (init balance) ->
  Forall levels_at_entry (objects t) ->
  Forall levels_at_entry (objects (fst (execute_trade t token action a price))).
Proof.
  intros Hs H. unfold execute_trade.
  destruct (String.eqb (Py.upper action) "BUY").
  - destruct (Qlt_le_dec _ _); [exact H |].
    destruct (Qlt_le_dec _ _); [exact H |].
    cbn [fst open_position objects]. apply Forall_app. split; [exact H |].
    apply Forall_singleton. injection Hs as _ _ Hpct Hlev.
    unfold levels_at_entry.
    cbn [stop_loss entry_price take_profits]. rewrite Hpct, Hlev.
    split; reflexivity.
  - destruct (String.eqb (Py.upper action) "SELL"); [| exact H].
    destruct (positions t !! token); exact H.
Qed.

Lemma run_levels balance cs :
  Forall levels_at_entry (objects (run (init balance) cs)).
Proof.
  apply (preserved_run
           (fun t => settings t = settings (init balance) /\
                     Forall levels_at_entry (objects t))).
  - intros t r f Hf [Hs H]. split; [exact Hs |].
    cbn [write objects]. apply Forall_alter; [exact H |].
    intros p _ Hp. apply mutation_keeps_levels; assumption.
  - intros t token action a price [Hs H]. split.
    + rewrite settings_trade. exact Hs.
    + eapply levels_kept_by_trade; eassumption.
  - split; [reflexivity | constructor].
Qed.

(** In any session of a new trader, the exit levels of every open
    position are the ones computed at entry: stop-loss at 92% of the
    entry price and targets at 1.3, 1.8 and 5 times it; no price update
    moves them.  For a positive entry price they are ordered, so no
    price can meet the stop-loss and a target at once. *)
Theorem exit_levels_fixed_at_entry (balance : Q) (cs : list command)
    (token : string) (r : nat) :
  let t := run (init balance) cs in
  positions t !! token = Some r ->
  let p := deref t r in
  levels_at_entry p /\
  (0 < entry_price p ->
   stop_loss p < entry_price p /\
   entry_price p < first (take_profits p) /\
   first (take_profits p) < second (take_profits p) /\
   second (take_profits p) < moonbag (take_profits p) /\
   forall price, price <= stop_loss p -> price < first (take_profits p)).
Proof.
  cbv zeta. intros Hr.
  pose proof (run_store_ok balance cs token r Hr) as Hlt.
  pose proof (run_levels balance cs) as Hall.
  assert (Hp : levels_at_entry (deref (run (init balance) cs) r)).
  { unfold deref. apply Forall_lookup_total_1; assumption. }
  split; [exact Hp |]. intros Hpos. destruct Hp as [E1 E2].
  rewrite E1, E2. cbn [first second moonbag].
  repeat split; try lra. intros price H. lra.
Qed.

Lemma exit_levels_fixed_at_entry_witness :
  levels_at_entry
    (deref (run (init 500) [Trade "T" "BUY" 10 1.00; Update [("T", 1.10)]]) 0).
Proof.
  apply (exit_levels_fixed_at_entry 500
           [Trade "T" "BUY" 10 1.00; Update [("T", 1.10)]] "T" 0).
  reflexivity.
Defined.

End ExitLevels.

(** ** Open positions are never partly sold *)

Section Whole.
Import SimulatedTrader TraderSession.
Local Open Scope Q_scope.

Lemma whole_init balance : whole (init balance).
Proof.
  split; [apply store_ok_init | split].
  - intros k1 k2 r H. cbn in H. rewrite lookup_empty in H. discriminate.
  - intros token r H. cbn in H. rewrite lookup_empty in H. discriminate.
Qed.

Lemma whole_open_position t token a price :
  whole t -> whole (open_position t token a price).
Proof.
  intros (Hs & Hi & Hp).
  assert (Hnew : forall k r, k <> token ->
            positions (open_position t token a price) !! k = Some r ->
            positions t !! k = Some r /\ (r < length (objects t))%nat).
  { intros k r Hne H. cbn [open_position positions] in H.
    rewrite lookup_insert_ne in H by congruence.
    split; [exact H | exact (Hs k r H)]. }
  assert (Hat : forall r,
            positions (open_position t token a price) !! token = Some r ->
            r = length (objects t)).
  { intros r H. cbn [open_position positions] in H.
    rewrite lookup_insert_eq in H. congruence. }
  split; [| split].
  - intros k r H. cbn [open_position objects]. rewrite length_app; simpl.
    destruct (decide (k = token)) as [->|Hne].
    + rewrite (Hat r H). lia.
    + destruct (Hnew k r Hne H) as [_ Hlt]. lia.
  - intros k1 k2 r H1 H2.
    destruct (decide (k1 = token)) as [->|N1];
      destruct (decide (k2 = token)) as [->|N2]; [reflexivity | | |].
    + apply Hat in H1. destruct (Hnew k2 r N2 H2) as [_ Hlt]. lia.
    + apply Hat in H2. destruct (Hnew k1 r N1 H1) as [_ Hlt]. lia.
    + destruct (Hnew k1 r N1 H1) as [G1 _]. destruct (Hnew k2 r N2 H2) as [G2 _].
      exact (Hi k1 k2 r G1 G2).
  - intros k r H. unfold deref. cbn [open_position objects].
    destruct (decide (k = token)) as [->|Hne].
    + rewrite (Hat r H). rewrite list_lookup_total_middle by reflexivity.
      split; reflexivity.
    + destruct (Hnew k r Hne H) as [G Hlt].
      rewrite lookup_total_app_l by exact Hlt. exact (Hp k r G).
Qed.

Lemma whole_close_position t token action p price :
  whole t -> whole (close_position t token action p price).
Proof.
  intros (Hs & Hi & Hp).
  assert (Hold : forall k r,
            positions (close_position t token action p price) !! k = Some r ->
            positions t !! k = Some r).
  { intros k r H. cbn [close_position positions] in H.
    destruct (decide (token = k)) as [->|Hne].
    - rewrite lookup_delete_eq in H. discriminate.
    - rewrite lookup_delete_ne in H by exact Hne. exact H. }
  split; [| split].
  - intros k r H. exact (Hs k r (Hold k r H)).
  - intros k1 k2 r H1 H2. exact (Hi k1 k2 r (Hold _ _ H1) (Hold _ _ H2)).
  - intros k r H. exact (Hp k r (Hold k r H)).
Qed.

Lemma whole_trade t token action a price :
  whole t -> whole (fst (execute_trade t token action a price)).
Proof.
  intros H. unfold execute_trade.
  destruct (String.eqb (Py.upper action) "BUY").
  - destruct (Qlt_le_dec _ _); [exact H |].
    destruct (Qlt_le_dec _ _); [exact H |]. apply whole_open_position, H.
  - destruct (String.eqb (Py.upper action) "SELL"); [| exact H].
    destruct (positions t !! token); [| exact H].
    apply whole_close_position, H.
Qed.

Lemma deref_write_other t r f r' :
  r' <> r -> deref (write t r f) r' = deref t r'.
Proof.
  intros Hne. unfold deref, write; cbn [objects].
  apply list_lookup_total_alter_ne. congruence.
Qed.

(** Writing the price keeps a position as it was bought. *)
Lemma whole_write_price t r v : whole t -> whole (write t r (set_current_price v)).
Proof.
  intros (Hs & Hi & Hp). split; [apply store_ok_write, Hs | split; [exact Hi |]].
  intros k r' H. specialize (Hp k r' H).
  destruct (decide (r' = r)) as [->|Hne].
  - destruct (deref_write t r (set_current_price v)) as [-> | ->]; exact Hp.
  - rewrite deref_write_other by exact Hne. exact Hp.
Qed.

(** Any write to a dict that no token refers to is invisible. *)
Lemma whole_write_orphan t r f : whole t -> orphan r t -> whole (write t r f).
Proof.
  intros (Hs & Hi & Hp) Ho. split; [apply store_ok_write, Hs | split; [exact Hi |]].
  intros k r' H. rewrite deref_write_other; [exact (Hp k r' H) |].
  intros ->. exact (Ho k H).
Qed.

Lemma sell_present t token a price r :
  whole t -> positions t !! token = Some r ->
  sold_off token r (fst (execute_trade t token "SELL" a price)).
Proof.
  intros Hw Hr. split; [apply whole_trade, Hw |].
  rewrite (execute_sell t token "SELL" a price r eq_refl Hr).
  cbn [fst close_position positions]. split; [| apply lookup_delete_eq].
  intros k Hk. cbn [close_position positions] in Hk.
  destruct (decide (token = k)) as [->|Hne].
  - rewrite lookup_delete_eq in Hk. discriminate.
  - rewrite lookup_delete_ne in Hk by exact Hne.
    destruct Hw as (_ & Hi & _). apply Hne. exact (Hi token k r Hr Hk).
Qed.

Lemma sell_again t token a price r :
  sold_off token r t ->
  fst (execute_trade t token "SELL" a price) = t.
Proof.
  intros (_ & _ & Hn).
  rewrite (execute_sell_absent t token "SELL" a price eq_refl Hn). reflexivity.
Qed.

Lemma sold_off_write token r t f : sold_off token r t -> sold_off token r (write t r f).
Proof.
  intros (Hw & Ho & Hn). split; [apply whole_write_orphan; assumption |].
  split; [exact Ho | exact Hn].
Qed.

End Whole.

Section SessionInduction.
Import SimulatedTrader TraderSession.

Variable P : trader -> Prop.
Hypothesis P_trade :
  forall t token action a price,
    P t -> P (fst (execute_trade t token action a price)).
Hypothesis P_update :
  forall t token price, P t -> P (fst (update_position t token price)).

Lemma kept_update_positions market_data : forall t,
  P t -> P (fst (update_positions t market_data)).
Proof.
  induction market_data as [|[token price] rest IH]; intros t H; simpl.
  - exact H.
  - pose proof (P_update t token price H) as H1.
    destruct (update_position t token price) as [t1 log1].
    pose proof (IH t1 H1) as H2.
    destruct (update_positions t1 rest) as [t2 log2]. exact H2.
Qed.

Lemma kept_run cs : forall t, P t -> P (run t cs).
Proof.
  induction cs as [|c cs IH]; intros t H; simpl; [exact H |].
  apply IH. destruct c as [token action a price | market_data]; simpl.
  - apply P_trade, H.
  - apply kept_update_positions, H.
Qed.

End SessionInduction.

Section WholeUpdates.
Import SimulatedTrader TraderSession.
Local Open Scope Q_scope.

Lemma first_target_sold_off t token r price :
  sold_off token r t -> sold_off token r (fst (first_target t token r price)).
Proof.
  intros H. unfold first_target. destruct (Qle_bool _ _); [| exact H].
  pose proof (sell_again t token (amount (deref t r) * 0.40) price r H) as E.
  destruct (execute_trade _ _ _ _ _) as [t1 res]. cbn [fst] in *. subst t1.
  apply sold_off_write, H.
Qed.

Lemma second_target_sold_off t token r price :
  sold_off token r t -> sold_off token r (fst (second_target t token r price)).
Proof.
  intros H. unfold second_target. destruct (Qle_bool _ _); [| exact H].
  pose proof (sell_again t token (amount (deref t r) * 0.40) price r H) as E.
  destruct (execute_trade _ _ _ _ _) as [t1 res]. cbn [fst] in *. subst t1.
  apply sold_off_write, sold_off_write, H.
Qed.

Lemma moonbag_target_sold_off t token r price :
  sold_off token r t -> sold_off token r (fst (moonbag_target t token r price)).
Proof.
  intros H. unfold moonbag_target. destruct (Qle_bool _ _); [| exact H].
  pose proof (sell_again t token (amount (deref t r)) price r H) as E.
  destruct (execute_trade _ _ _ _ _) as [t1 res]. cbn [fst] in *. subst t1.
  exact H.
Qed.

Lemma first_target_whole t token r price :
  whole t -> positions t !! token = Some r ->
  first_target t token r price = (t, []) \/
  sold_off token r (fst (first_target t token r price)).
Proof.
  intros Hw Hr. unfold first_target.
  destruct (Qle_bool _ _); [right | left; reflexivity].
  pose proof (sell_present t token (amount (deref t r) * 0.40) price r Hw Hr) as E.
  destruct (execute_trade _ _ _ _ _) as [t1 res]. cbn [fst] in *.
  apply sold_off_write, E.
Qed.

Lemma second_target_whole t token r price :
  whole t -> positions t !! token = Some r ->
  second_target t token r price = (t, []) \/
  sold_off token r (fst (second_target t token r price)).
Proof.
  intros Hw Hr. unfold second_target.
  destruct (Qle_bool _ _); [right | left; reflexivity].
  pose proof (sell_present t token (amount (deref t r) * 0.40) price r Hw Hr) as E.
  destruct (execute_trade _ _ _ _ _) as [t1 res]. cbn [fst] in *.
  apply sold_off_write, sold_off_write, E.
Qed.

Lemma moonbag_target_whole t token r price :
  whole t -> positions t !! token = Some r ->
  moonbag_target t token r price = (t, []) \/
  sold_off token r (fst (moonbag_target t token r price)).
Proof.
  intros Hw Hr. unfold moonbag_target.
  destruct (Qle_bool _ _); [right | left; reflexivity].
  pose proof (sell_present t token (amount (deref t r)) price r Hw Hr) as E.
  destruct (execute_trade _ _ _ _ _) as [t1 res]. cbn [fst] in *. exact E.
Qed.

Lemma whole_update_position t token price :
  whole t -> whole (fst (update_position t token price)).
Proof.
  intros Hw. unfold update_position.
  destruct (positions t !! token) as [r|] eqn:Hr; [| exact Hw].
  pose proof (whole_write_price t r price Hw) as H0.
  set (t0 := write t r (set_current_price price)) in *.
  assert (Hr0 : positions t0 !! token = Some r) by exact Hr.
  destruct (Qle_bool price (stop_loss (deref t0 r))).
  { pose proof (whole_trade t0 token "SELL" (amount (deref t0 r)) price H0) as H1.
    destruct (execute_trade _ _ _ _ _) as [t1 res]. exact H1. }
  destruct (negb (moonbag_reserved (deref t0 r))); [| exact H0].
  destruct (first_target_whole t0 token r price H0 Hr0) as [E1|S1].
  - rewrite E1.
    destruct (second_target_whole t0 token r price H0 Hr0) as [E2|S2].
    + rewrite E2.
      destruct (moonbag_target_whole t0 token r price H0 Hr0) as [E3|S3].
      * rewrite E3. exact H0.
      * destruct (moonbag_target t0 token r price) as [t3 log3]. apply S3.
    + destruct (second_target t0 token r price) as [t2 log2]. cbn [fst] in S2.
      pose proof (moonbag_target_sold_off t2 token r price S2) as S3.
      destruct (moonbag_target t2 token r price) as [t3 log3]. apply S3.
  - destruct (first_target t0 token r price) as [t1 log1]. cbn [fst] in S1.
    pose proof (second_target_sold_off t1 token r price S1) as S2.
    destruct (second_target t1 token r price) as [t2 log2]. cbn [fst] in S2.
    pose proof (moonbag_target_sold_off t2 token r price S2) as S3.
    destruct (moonbag_target t2 token r price) as [t3 log3]. apply S3.
Qed.

Lemma run_whole balance cs : whole (run (init balance) cs).
Proof.
  apply kept_run.
  - intros t tk action a price H. apply whole_trade, H.
  - intros t tk price H. apply whole_update_position, H.
  - apply whole_init.
Qed.

(** In any session of a new trader, every open position is exactly as
    it was bought: its amount times its entry price is still its
    recorded size and its moonbag flag is unset.  The 40% reductions
    and the moonbag flag that [update_positions] writes only ever land
    on a position dict that has already left the table.  No two tokens
    share a position dict. *)
Theorem open_positions_stay_whole (balance : Q) (cs : list command)
    (token : string) (r : nat) :
  let t := run (init balance) cs in
  positions t !! token = Some r ->
  position_size (deref t r) = amount (deref t r) * entry_price (deref t r) /\
  moonbag_reserved (deref t r) = false /\
  (forall other, positions t !! other = Some r -> other = token).
Proof.
  cbv zeta. intros Hr.
  destruct (run_whole balance cs) as (_ & Hi & Hp).
  destruct (Hp token r Hr) as [E1 E2].
  split; [exact E1 | split; [exact E2 |]].
  intros other Ho. exact (Hi other token r Ho Hr).
Qed.

Lemma open_positions_stay_whole_witness :
  moonbag_reserved
    (deref (run (init 500) [Trade "T" "BUY" 10 1.00; Update [("T", 1.10)]]) 0)
  = false.
Proof.
  apply (open_positions_stay_whole 500
           [Trade "T" "BUY" 10 1.00; Update [("T", 1.10)]] "T" 0).
  reflexivity.
Defined.

(** Buying a token that already has an open position abandons that
    position: the token now refers to a new dict, no token refers to the
    old one any more, the cost of the new purchase is debited and
    nothing is credited or recorded for the old position. *)
Theorem rebuy_abandons_open_position (balance : Q) (cs : list command)
    (token : string) (r : nat) (a price : Q) :
  let t := run (init balance) cs in
  positions t !! token = Some r ->
  a * price <= current_balance t ->
  a * price <= max_position_size t ->
  let t' := fst (execute_trade t token "BUY" a price) in
  orphan r t' /\
  positions t' !! token = Some (length (objects t)) /\
  current_balance t' = current_balance t - a * price /\
  trade_history t' = trade_history t /\
  total_trades t' = total_trades t.
Proof.
  cbv zeta. intros Hr Hb Hm.
  destruct (run_whole balance cs) as (Hs & Hi & _).
  set (t := run (init balance) cs) in *.
  rewrite (execute_buy t token "BUY" a price eq_refl Hb Hm).
  cbn [fst open_position positions current_balance trade_history total_trades].
  split; [| split; [apply lookup_insert_eq | repeat split]].
  intros k Hk. cbn [open_position positions] in Hk.
  destruct (decide (k = token)) as [->|Hne].
  - rewrite lookup_insert_eq in Hk. injection Hk as Hk.
    pose proof (Hs token r Hr). lia.
  - rewrite lookup_insert_ne in Hk by congruence.
    apply Hne. exact (Hi k token r Hk Hr).
Qed.

Lemma rebuy_abandons_open_position_witness :
  orphan 0 (fst (execute_trade (run (init 500) [Trade "T" "BUY" 10 1.00])
                               "T" "BUY" 5 2.00)).
Proof.
  apply (rebuy_abandons_open_position 500 [Trade "T" "BUY" 10 1.00] "T" 0 5 2.00).
  - reflexivity.
  - vm_compute. discriminate.
  - vm_compute. discriminate.
Defined.

End WholeUpdates.
